(** * The dashboard pipeline of app.py: normalisation, filters, metrics

    app.py is a straight-line script.  It loads two sheets into pandas
    DataFrames, converts their date columns, narrows the frames by the
    sidebar selections, coerces the phone columns to text and derives the
    numbers and tables the page shows.  The embedding below follows the
    script line by line:

    - a DataFrame is either the frame without columns that
      [pd.DataFrame([])] gives, or the list of its rows, a row being a
      record with one field per column the script reads (the header of
      each sheet is taken to have those columns);
    - the names [df_transactions] and [df_balances] are references into a
      store of frames: boolean indexing allocates a new frame and rebinds
      the name, a column assignment updates the frame the name points to;
    - a Python exception is the [Raise] outcome of a statement; what the
      statements before it did to the store and the page stays done.

    Of the page only the four metric tiles and the data of the performance
    chart are kept; streamlit and altair are outside the embedding. *)

From Stdlib Require Import ZArith QArith Ascii DecimalString.
From stdpp Require Import base option list gmap strings sorting.

Set Default Proof Using "Type".

(** ** Outcomes *)

Inductive exn :=
  | KeyError (column : string)  (* df[column] on a frame without it *)
  | ValueError                  (* pd.to_datetime on text it cannot parse *)
  | ZeroDivisionError.          (* int / int with a zero divisor *)

Inductive result (A : Type) :=
  | Ok (a : A)
  | Raise (e : exn).
Arguments Ok {A} a.
Arguments Raise {A} e.

Global Instance result_ret : MRet result := λ A a, Ok a.
Global Instance result_bind : MBind result := λ A B f m,
  match m with
  | Ok a => f a
  | Raise e => Raise e
  end.
Global Instance result_fmap : FMap result := λ A B f m,
  match m with
  | Ok a => Ok (f a)
  | Raise e => Raise e
  end.

(** ** Rows *)

(** A sheet cell as [get_all_records] hands it over: a cell that looks like
    a number arrives as an int, anything else as text. *)
Inductive cell :=
  | CInt (z : Z)
  | CStr (s : string).

Global Instance cell_eq_dec : EqDecision cell.
Proof. solve_decision. Defined.

(** One row of the "Transactions" sheet.  [T] is the type of the Timestamp
    column: [string] as loaded, [option Z] (nanoseconds since the epoch,
    [None] for NaT) once line 95 has converted it. *)
Record txn (T : Type) := Txn {
  Timestamp : T;
  userName : string;
  phoneNumber : cell;
  type : string;
  amount : Z
}.
Arguments Txn {T}.
Arguments Timestamp {T}.
Arguments userName {T}.
Arguments phoneNumber {T}.
Arguments type {T}.
Arguments amount {T}.

(** One row of the "CurrentBalances" sheet, [T] the type of "Last Updated". *)
Record bal (T : Type) := Bal {
  Username : string;
  Phone : cell;
  Current_Balance : Z;
  Last_Updated : T
}.
Arguments Bal {T}.
Arguments Username {T}.
Arguments Phone {T}.
Arguments Current_Balance {T}.
Arguments Last_Updated {T}.

Global Instance txn_eq_dec `{EqDecision T} : EqDecision (txn T).
Proof. solve_decision. Defined.
Global Instance bal_eq_dec `{EqDecision T} : EqDecision (bal T).
Proof. solve_decision. Defined.

(** pandas timestamps: nanoseconds since the epoch, [None] is NaT. *)
Abbreviation datetime := (option Z).
(** [datetime.date] values of the date picker: days since the epoch. *)
Abbreviation date := Z.

Definition ns_per_day : Z := 86400 * 1000000000.

(** ** Frames *)

Inductive frame (R : Type) :=
  | Empty                   (* no columns, no rows *)
  | Table (rows : list R).  (* the sheet's columns, any number of rows *)
Arguments Empty {R}.
Arguments Table {R} rows.

(** [pd.DataFrame(data)] (lines 71 and 77) for the records of a sheet:
    the columns are the keys of the records, so no record, no column. *)
Definition DataFrame {R} (data : list R) : frame R :=
  match data with
  | [] => Empty
  | _ :: _ => Table data
  end.

Definition rows {R} (df : frame R) : list R :=
  match df with
  | Empty => []
  | Table rows => rows
  end.

(** [len(df)]. *)
Definition len {R} (df : frame R) : nat := length (rows df).

(** [df[name]]: the column, or KeyError. *)
Definition column {R A} (name : string) (field : R → A) (df : frame R)
    : result (list A) :=
  match df with
  | Empty => Raise (KeyError name)
  | Table rows => Ok (field <$> rows)
  end.

(** The rows at which a boolean mask is True. *)
Definition take_rows {R} (rows : list R) (mask : list bool) : list R :=
  (filter (λ p, Is_true p.2) (zip rows mask)).*1.

(** [df[mask]]: a new frame with the same columns. *)
Definition boolean_index {R} (df : frame R) (mask : list bool) : frame R :=
  match df with
  | Empty => Empty
  | Table rows => Table (take_rows rows mask)
  end.

(** [df[name] = values] for a column the frame has, row by row. *)
Definition set_column {R A} (set : R → A → R) (values : list A)
    (df : frame R) : frame R :=
  match df with
  | Empty => Empty
  | Table rows => Table (zip_with set rows values)
  end.

(** ** Schema normaliser (lines 93-102) *)

Inductive errors_mode := errors_raise | errors_coerce.

(** What the parser makes of one piece of text. *)
Inductive parsed :=
  | Instant (t : Z)   (* a date and time *)
  | Missing           (* one of the null markers, such as "NaT" *)
  | Malformed.        (* anything else *)

Module to_datetime.
Section to_datetime.
(** The text parser of pandas is a parameter.  It is given the whole
    column next to the value, since without a [format] argument the format
    is inferred from the column. *)
Variable parse : list string → string → parsed.

(** One value: the empty string and the null markers are NaT under either
    mode; malformed text raises under [errors="raise"] and is NaT under
    "coerce". *)
Definition value (errors : errors_mode) (whole : list string) (s : string)
  : result datetime :=
  if decide (s = "") then Ok None
  else match parse whole s with
       | Instant t => Ok (Some t)
       | Missing => Ok None
       | Malformed =>
           match errors with
           | errors_raise => Raise ValueError
           | errors_coerce => Ok None
           end
       end.

(** The values of a column in turn: the first one that raises aborts the
    conversion. *)
Fixpoint values (errors : errors_mode) (whole col : list string)
  : result (list datetime) :=
  match col with
  | [] => Ok []
  | s :: col =>
      t ← value errors whole s;
      ts ← values errors whole col;
      Ok (t :: ts)
  end.

Definition series (errors : errors_mode) (col : list string)
  : result (list datetime) :=
  values errors col col.
End to_datetime.
End to_datetime.

Definition set_Timestamp {A B} (r : txn A) (t : B) : txn B :=
  Txn t (userName r) (phoneNumber r) (type r) (amount r).
Definition set_Last_Updated {A B} (r : bal A) (t : B) : bal B :=
  Bal (Username r) (Phone r) (Current_Balance r) t.

Section Normalizer.
(** [parse_any]: the format-inferring parser used when no format is
    given; [parse_dmy_hms]: parsing under "%d/%m/%Y %H:%M:%S". *)
Variables parse_any parse_dmy_hms : list string → string → parsed.

(** Lines 94-95: when the frame has the column,
    [pd.to_datetime(df_transactions["Timestamp"])] under the default
    [errors="raise"] is assigned back to it. *)
Definition convert_Timestamp (df : frame (txn string))
  : result (frame (txn datetime)) :=
  match df with
  | Empty => Ok Empty
  | Table rows =>
      col ← to_datetime.series parse_any errors_raise (Timestamp <$> rows);
      Ok (Table (zip_with set_Timestamp rows col))
  end.

(** Lines 97-102: "Last Updated" with the fixed format and
    [errors="coerce"]. *)
Definition convert_Last_Updated (df : frame (bal string))
  : result (frame (bal datetime)) :=
  match df with
  | Empty => Ok Empty
  | Table rows =>
      col ← to_datetime.series parse_dmy_hms errors_coerce
              (Last_Updated <$> rows);
      Ok (Table (zip_with set_Last_Updated rows col))
  end.
End Normalizer.

(** ** Column operations *)

(** [Series.unique()]: the distinct values in order of first appearance. *)
Definition unique (col : list string) : list string :=
  reverse (remove_dups (reverse col)).

(** [Series.isin(values)]. *)
Definition isin (values : list string) (col : list string) : list bool :=
  (λ s, bool_decide (s ∈ values)) <$> col.

(** [pd.to_datetime(d)] for a [datetime.date]: midnight of that day. *)
Definition date_to_datetime (d : date) : datetime := Some (d * ns_per_day)%Z.

(** [>=] and [<=] on datetimes: a comparison with NaT is False. *)
Definition datetime_ge (t bound : datetime) : bool :=
  match t, bound with
  | Some x, Some y => bool_decide (y ≤ x)%Z
  | _, _ => false
  end.
Definition datetime_le (t bound : datetime) : bool :=
  match t, bound with
  | Some x, Some y => bool_decide (x ≤ y)%Z
  | _, _ => false
  end.

(** [series >= bound], [series <= bound], [mask1 & mask2], [series > 0]. *)
Definition series_ge (col : list datetime) (bound : datetime) : list bool :=
  (λ t, datetime_ge t bound) <$> col.
Definition series_le (col : list datetime) (bound : datetime) : list bool :=
  (λ t, datetime_le t bound) <$> col.
Definition mask_and (mask1 mask2 : list bool) : list bool :=
  zip_with andb mask1 mask2.
Definition series_gt_0 (col : list Z) : list bool :=
  (λ z, bool_decide (0 < z)%Z) <$> col.

(** [str] of an int. *)
Definition str_of_int (z : Z) : string := NilZero.string_of_int (Z.to_int z).

(** [astype(str)] on one cell. *)
Definition astype_str (c : cell) : cell :=
  match c with
  | CInt z => CStr (str_of_int z)
  | CStr s => CStr s
  end.

Definition set_phoneNumber {T} (r : txn T) (c : cell) : txn T :=
  Txn (Timestamp r) (userName r) c (type r) (amount r).
Definition set_Phone {T} (b : bal T) (c : cell) : bal T :=
  Bal (Username b) c (Current_Balance b) (Last_Updated b).

(** [Series.sum()] of an integer column; 0 for the empty column. *)
Definition sum (col : list Z) : Z := foldr Z.add 0%Z col.

(** A float: NaN or a number.  Numbers are exact rationals, so the rounding
    of binary floating point is not part of the embedding. *)
Inductive float64 :=
  | NaN
  | Fin (q : Q).

(** [Series.mean()]: NaN for the empty column, else sum over count. *)
Definition mean (col : list Z) : float64 :=
  match col with
  | [] => NaN
  | _ :: _ => Fin (sum col # Pos.of_nat (length col))
  end.

(** Python's [int / int]: a float, or ZeroDivisionError. *)
Definition truediv (a b : Z) : result Q :=
  if decide (b = 0%Z) then Raise ZeroDivisionError
  else Ok (inject_Z a / inject_Z b)%Q.

(** ** Formatting *)

(** Nearest integer to [a / b] for [0 ≤ a], ties to even. *)
Definition round_half_even (a : Z) (b : positive) : Z :=
  let n := (a / Z.pos b)%Z in
  let r := (a mod Z.pos b)%Z in
  if (2 * r <? Z.pos b)%Z then n
  else if (Z.pos b <? 2 * r)%Z then (n + 1)%Z
  else if Z.even n then n else (n + 1)%Z.

(** [s] left-padded with zeros to width [w]. *)
Definition zero_pad (w : nat) (s : string) : string :=
  String.concat "" (replicate (w - String.length s) "0") +:+ s.

(** A comma after every third digit, on the digits in reverse order. *)
Fixpoint group3 (rev_digits : list ascii) : list ascii :=
  match rev_digits with
  | a :: b :: c :: (_ :: _) as rest => a :: b :: c :: ","%char :: group3 rest
  | _ => rev_digits
  end.

(** The "," option of a format spec, on the digits of the whole part. *)
Definition thousands (digits : string) : string :=
  String.string_of_list_ascii
    (reverse (group3 (reverse (String.list_ascii_of_string digits)))).

(** The format specs [.df] and [,.df]: fixed point with [d] decimals,
    optionally with thousands separators; "nan" for NaN. *)
Definition format_f (comma : bool) (d : nat) (x : float64) : string :=
  match x with
  | NaN => "nan"
  | Fin q =>
      let scale := (10 ^ Z.of_nat d)%Z in
      let m := round_half_even (Z.abs (Qnum q) * scale) (Qden q) in
      let sign := if (Qnum q <? 0)%Z then "-" else "" in
      let digits := str_of_int (m / scale) in
      let whole := if comma then thousands digits else digits in
      match d with
      | O => sign +:+ whole
      | S _ => sign +:+ whole +:+ "." +:+ zero_pad d (str_of_int (m mod scale))
      end
  end.

(** ** Per-user view: the tables (lines 361-368) *)

Record summary := Summary {
  summary_userName : string;
  total_amount : Z;
  transaction_count : nat;
  first_type : string
}.

Definition of_user (u : string) (r : txn datetime) : Prop := userName r = u.
Global Instance of_user_dec u r : Decision (of_user u r).
Proof. unfold of_user. apply _. Defined.

(** The group keys of [groupby("userName")]: each name once, ascending. *)
Definition group_keys (df : list (txn datetime)) : list string :=
  merge_sort String.le (remove_dups (userName <$> df)).

(** One row of the aggregate: sum and count of amount, first type. *)
Definition aggregate (df : list (txn datetime)) (u : string) : summary :=
  let g := filter (of_user u) df in
  Summary u (sum (amount <$> g)) (length g) (default "" (head (type <$> g))).

(** Lines 361-365, on the rows of the frame. *)
Definition user_summary (df : list (txn datetime)) : list summary :=
  aggregate df <$> group_keys df.

(** A row of the merged table: the aggregate columns and the balance
    columns, the latter null when no balance row matched. *)
Record performance := Performance {
  left_row : summary;
  right_row : option (bal datetime)
}.

Definition matches (u : string) (b : bal datetime) : Prop := Username b = u.
Global Instance matches_dec u b : Decision (matches u b).
Proof. unfold matches. apply _. Defined.

(** The rows one left row contributes to a left merge: one per right row of
    the same key, or one with nulls when there is none. *)
Definition merge_row (right : list (bal datetime)) (s : summary)
    : list performance :=
  match filter (matches (summary_userName s)) right with
  | [] => [Performance s None]
  | bs => Performance s <$> (Some <$> bs)
  end.

(** [pd.merge(left, right, left_on="userName", right_on="Username",
    how="left")]: the left rows in order. *)
Definition merge_left (left : list summary) (right : list (bal datetime))
    : list performance :=
  left ≫= merge_row right.

(** Line 368, on the rows of the two frames. *)
Definition user_performance (df_t : list (txn datetime))
    (df_b : list (bal datetime)) : list performance :=
  merge_left (user_summary df_t) df_b.

(** ** The store of frames, the script's two names, the page *)

Abbreviation loc := nat.

Inductive element :=
  | Metric (label : string) (value : cell) (delta : option string)
  | Scatter (data : list performance).

Record state := State {
  tframes : gmap loc (frame (txn datetime));  (* transaction DataFrames *)
  bframes : gmap loc (frame (bal datetime));  (* balance DataFrames *)
  df_transactions : loc;                      (* what the name refers to *)
  df_balances : loc;
  page : list element                         (* rendered so far *)
}.

(** Lines 90-102 leave the two loaded (and converted) frames in the store,
    each under its name. *)
Definition load (transactions : frame (txn datetime))
    (balances : frame (bal datetime)) : state :=
  State {[ 0 := transactions ]} {[ 0 := balances ]} 0 0 [].

(** The frame a name currently stands for. *)
Definition transactions_of (σ : state) : frame (txn datetime) :=
  default Empty (tframes σ !! df_transactions σ).
Definition balances_of (σ : state) : frame (bal datetime) :=
  default Empty (bframes σ !! df_balances σ).

(** Statements of the script: each leaves a store behind and either
    returns or raises. *)
Definition M (A : Type) : Type := state → result A * state.

Global Instance M_ret : MRet M := λ A a σ, (Ok a, σ).
Global Instance M_bind : MBind M := λ A B f m σ,
  match m σ with
  | (Ok a, σ') => f a σ'
  | (Raise e, σ') => (Raise e, σ')
  end.

Definition lift {A} (m : result A) : M A := λ σ, (m, σ).

(** Reading a name. *)
Definition get_transactions : M (frame (txn datetime)) :=
  λ σ, (Ok (transactions_of σ), σ).
Definition get_balances : M (frame (bal datetime)) :=
  λ σ, (Ok (balances_of σ), σ).

(** [df_transactions = <new frame>]: the frame goes into the store and the
    name is rebound to it; the frame it stood for stays as it is. *)
Definition rebind_transactions (df : frame (txn datetime)) : M unit := λ σ,
  let l := fresh (dom (tframes σ)) in
  (Ok (), State (<[l := df]> (tframes σ)) (bframes σ) l (df_balances σ)
            (page σ)).
Definition rebind_balances (df : frame (bal datetime)) : M unit := λ σ,
  let l := fresh (dom (bframes σ)) in
  (Ok (), State (tframes σ) (<[l := df]> (bframes σ)) (df_transactions σ) l
            (page σ)).

(** [df[col] = ...]: the frame the name refers to is updated in place. *)
Definition update_transactions
    (f : frame (txn datetime) → frame (txn datetime)) : M unit := λ σ,
  (Ok (), State (alter f (df_transactions σ) (tframes σ)) (bframes σ)
            (df_transactions σ) (df_balances σ) (page σ)).
Definition update_balances
    (f : frame (bal datetime) → frame (bal datetime)) : M unit := λ σ,
  (Ok (), State (tframes σ) (alter f (df_balances σ) (bframes σ))
            (df_transactions σ) (df_balances σ) (page σ)).

(** [st.metric(...)] and [st.altair_chart(...)]: one more element. *)
Definition render (e : element) : M unit := λ σ,
  (Ok (), State (tframes σ) (bframes σ) (df_transactions σ) (df_balances σ)
            (page σ ++ [e])).

(** ** Sidebar (lines 105-117) *)

(** What the user has picked in the sidebar. *)
Record criteria := Criteria {
  selected_users : list string;
  selected_type : list string;
  date_range : list date
}.

(** Lines 109 and 113: the options of the two multiselects. *)
Definition sidebar_options : M (list string * list string) :=
  dt ← get_transactions;
  users ← lift (unique <$> column "userName" userName dt);
  dt ← get_transactions;
  types ← lift (unique <$> column "type" type dt);
  mret (users, types).

(** ** Filter engine (lines 119-135) *)

(** Lines 120-122. *)
Definition apply_user_filter (selected_users : list string) : M unit :=
  match selected_users with
  | [] => mret ()
  | _ :: _ =>
      dt ← get_transactions;
      col ← lift (column "userName" userName dt);
      rebind_transactions (boolean_index dt (isin selected_users col));;
      db ← get_balances;
      col ← lift (column "Username" Username db);
      rebind_balances (boolean_index db (isin selected_users col))
  end.

(** Line 124. *)
Definition apply_type_filter (selected_type : list string) : M unit :=
  dt ← get_transactions;
  col ← lift (column "type" type dt);
  rebind_transactions (boolean_index dt (isin selected_type col)).

(** Lines 126-131. *)
Definition apply_date_filter (date_range : list date) : M unit :=
  match date_range with
  | [start_date; end_date] =>
      dt ← get_transactions;
      col1 ← lift (column "Timestamp" Timestamp dt);
      col2 ← lift (column "Timestamp" Timestamp dt);
      rebind_transactions
        (boolean_index dt
           (mask_and (series_ge col1 (date_to_datetime start_date))
                     (series_le col2 (date_to_datetime end_date))))
  | _ => mret ()
  end.

(** Lines 134-135. *)
Definition fix_data_types : M unit :=
  dt ← get_transactions;
  col ← lift (column "phoneNumber" phoneNumber dt);
  update_transactions (set_column set_phoneNumber (astype_str <$> col));;
  db ← get_balances;
  col ← lift (column "Phone" Phone db);
  update_balances (set_column set_Phone (astype_str <$> col)).

(** Lines 119-135. *)
Definition apply_filters (c : criteria) : M unit :=
  apply_user_filter (selected_users c);;
  apply_type_filter (selected_type c);;
  apply_date_filter (date_range c);;
  fix_data_types.

(** ** Metrics aggregator (lines 140-175) *)

Record totals := Totals {
  total_users : nat;              (* line 141 *)
  total_balance : Z;              (* line 142 *)
  total_transactions : nat;       (* line 143 *)
  avg_balance : float64           (* line 144 *)
}.

(** Lines 141-144. *)
Definition compute_totals : M totals :=
  db ← get_balances;
  let total_users := len db in
  total_balance ← lift (sum <$> column "Current Balance" Current_Balance db);
  dt ← get_transactions;
  let total_transactions := len dt in
  avg_balance ← lift (mean <$> column "Current Balance" Current_Balance db);
  mret (Totals total_users total_balance total_transactions avg_balance).

(** Lines 149-154. *)
Definition metric1 (t : totals) : M unit :=
  db ← get_balances;
  col ← lift (column "Current Balance" Current_Balance db);
  let active := len (boolean_index db (series_gt_0 col)) in
  render (Metric "Total Users" (CInt (Z.of_nat (total_users t)))
            (Some (str_of_int (Z.of_nat active) +:+ " active"))).

(** Lines 156-161. *)
Definition metric2 (t : totals) : M unit :=
  render (Metric "Total Balance"
            (CStr ("₹" +:+ format_f true 0 (Fin (inject_Z (total_balance t)))))
            (Some ("Avg: ₹" +:+ format_f false 0 (avg_balance t)))).

(** Lines 163-167. *)
Definition metric3 (t : totals) : M unit :=
  render (Metric "Total Transactions" (CInt (Z.of_nat (total_transactions t)))
            None).

(** Lines 169-175. *)
Definition metric4 (t : totals) : M unit :=
  dt ← get_transactions;
  col ← lift (column "amount" amount dt);
  let positive_transactions := len (boolean_index dt (series_gt_0 col)) in
  ratio ← lift (truediv (Z.of_nat positive_transactions)
                  (Z.of_nat (total_transactions t)));
  render (Metric "Positive Transactions"
            (CInt (Z.of_nat positive_transactions))
            (Some (format_f false 1 (Fin (ratio * 100)) +:+ "%"))).

(** Lines 140-175. *)
Definition key_metrics : M unit :=
  t ← compute_totals;
  metric1 t;;
  metric2 t;;
  metric3 t;;
  metric4 t.

(** ** Per-user view: the statement (lines 360-380) *)

Definition performance_chart : M unit :=
  dt ← get_transactions;
  _ ← lift (column "userName" userName dt);
  db ← get_balances;
  _ ← lift (column "Username" Username db);
  render (Scatter (user_performance (rows dt) (rows db))).

(** ** The script *)

(** Lines 105-380 on the loaded frames. *)
Definition script (c : criteria) : M unit :=
  sidebar_options;;
  apply_filters c;;
  key_metrics;;
  performance_chart.

Section Dashboard.
Variables parse_any parse_dmy_hms : list string → string → parsed.

(** Lines 90-380: build the frames from the records of the two sheets,
    convert the date columns, then run the rest.  A raise while converting
    comes before there is anything on the page. *)
Definition dashboard (transactions : list (txn string))
    (balances : list (bal string)) (c : criteria) : result unit * option state :=
  match convert_Timestamp parse_any (DataFrame transactions) with
  | Raise e => (Raise e, None)
  | Ok dt =>
      match convert_Last_Updated parse_dmy_hms (DataFrame balances) with
      | Raise e => (Raise e, None)
      | Ok db => let '(r, σ) := script c (load dt db) in (r, Some σ)
      end
  end.
End Dashboard.

(** ** The rows the filters keep *)

Definition user_mask {T} (selected_users : list string) (r : txn T) : Prop :=
  userName r ∈ selected_users.
Definition balance_user_mask {T} (selected_users : list string) (b : bal T) : Prop :=
  Username b ∈ selected_users.
Definition type_mask {T} (selected_type : list string) (r : txn T) : Prop :=
  type r ∈ selected_type.
Definition date_mask (start_date end_date : date) (r : txn datetime) : Prop :=
  datetime_ge (Timestamp r) (date_to_datetime start_date)
  && datetime_le (Timestamp r) (date_to_datetime end_date).

Global Instance user_mask_dec {T} sel (r : txn T) : Decision (user_mask sel r).
Proof. unfold user_mask. apply _. Defined.
Global Instance balance_user_mask_dec {T} sel (b : bal T) :
  Decision (balance_user_mask sel b).
Proof. unfold balance_user_mask. apply _. Defined.
Global Instance type_mask_dec {T} sel (r : txn T) : Decision (type_mask sel r).
Proof. unfold type_mask. apply _. Defined.
Global Instance date_mask_dec s e r : Decision (date_mask s e r).
Proof. unfold date_mask. apply _. Defined.

(** The rows lines 120-131 leave of the rows of a frame that has its
    columns (shown below to be what the statements compute). *)
Definition user_filter {T} (selected_users : list string)
    (df : list (txn T)) : list (txn T) :=
  match selected_users with
  | [] => df
  | _ :: _ => filter (user_mask selected_users) df
  end.
Definition balance_user_filter {T} (selected_users : list string)
    (df : list (bal T)) : list (bal T) :=
  match selected_users with
  | [] => df
  | _ :: _ => filter (balance_user_mask selected_users) df
  end.
Definition type_filter {T} (selected_type : list string)
    (df : list (txn T)) : list (txn T) :=
  filter (type_mask selected_type) df.
Definition date_filter (date_range : list date)
    (df : list (txn datetime)) : list (txn datetime) :=
  match date_range with
  | [start_date; end_date] => filter (date_mask start_date end_date) df
  | _ => df
  end.

(** The rows after lines 134-135. *)
Definition fix_phoneNumber {T} (df : list (txn T)) : list (txn T) :=
  zip_with set_phoneNumber df (astype_str <$> (phoneNumber <$> df)).
Definition fix_Phone {T} (df : list (bal T)) : list (bal T) :=
  zip_with set_Phone df (astype_str <$> (Phone <$> df)).

Definition positive_balance (b : bal datetime) : Prop := (0 < Current_Balance b)%Z.
Definition positive_amount (r : txn datetime) : Prop := (0 < amount r)%Z.
Global Instance positive_balance_dec b : Decision (positive_balance b).
Proof. unfold positive_balance. apply _. Defined.
Global Instance positive_amount_dec r : Decision (positive_amount r).
Proof. unfold positive_amount. apply _. Defined.

(** ** The filter statements in another order *)

(** The script runs the three filter statements in one order; to compare
    it with the others, a statement is named and a list of names run. *)
Inductive filter_step := by_user | by_type | by_date.

Global Instance filter_step_eq_dec : EqDecision filter_step.
Proof. solve_decision. Defined.

Definition apply_step (c : criteria) (s : filter_step) : M unit :=
  match s with
  | by_user => apply_user_filter (selected_users c)
  | by_type => apply_type_filter (selected_type c)
  | by_date => apply_date_filter (date_range c)
  end.

Fixpoint apply_steps (c : criteria) (order : list filter_step) : M unit :=
  match order with
  | [] => mret ()
  | s :: order => apply_step c s;; apply_steps c order
  end.

(** The order of lines 120-131. *)
Definition script_order : list filter_step := [by_user; by_type; by_date].

(** The rows one filter statement keeps. *)
Definition keeps (c : criteria) (r : txn datetime) (s : filter_step) : Prop :=
  match s with
  | by_user => selected_users c = [] ∨ user_mask (selected_users c) r
  | by_type => type_mask (selected_type c) r
  | by_date =>
      match date_range c with
      | [start_date; end_date] => date_mask start_date end_date r
      | _ => True
      end
  end.

Global Instance keeps_dec c r s : Decision (keeps c r s).
Proof.
  destruct s; simpl; [apply _..|].
  destruct (date_range c) as [|? [|? [|? ?]]]; apply _.
Defined.

Definition keeps_balance (c : criteria) (b : bal datetime)
    (s : filter_step) : Prop :=
  match s with
  | by_user => selected_users c = [] ∨ balance_user_mask (selected_users c) b
  | _ => True
  end.

Global Instance keeps_balance_dec c b s : Decision (keeps_balance c b s).
Proof. destruct s; simpl; apply _. Defined.

(** ** Rows of the per-user view *)

Definition for_user (u : string) (p : performance) : Prop :=
  summary_userName (left_row p) = u.
Global Instance for_user_dec u p : Decision (for_user u p).
Proof. unfold for_user. apply _. Defined.

(** Two stores with the same frames under the same names. *)
Definition same_frames (σ σ' : state) : Prop :=
  tframes σ' = tframes σ ∧ bframes σ' = bframes σ ∧
  df_transactions σ' = df_transactions σ ∧ df_balances σ' = df_balances σ.

(** A statement that writes to no frame and rebinds no name. *)
Definition reads_only {A} (m : M A) : Prop :=
  ∀ σ, same_frames σ (m σ).2.

(** ** A small parser and sample sheets *)

Definition digit (c : ascii) : option Z :=
  let n := (Z.of_nat (nat_of_ascii c) - 48)%Z in
  if bool_decide (0 ≤ n ≤ 9)%Z then Some n else None.

Fixpoint number (acc : Z) (cs : list ascii) : option Z :=
  match cs with
  | [] => Some acc
  | c :: cs => d ← digit c; number (10 * acc + d) cs
  end.

(** Days from 1970-01-01 to the given day of the proleptic Gregorian
    calendar. *)
Definition days_from_civil (y m d : Z) : Z :=
  let y' := if (m <=? 2)%Z then (y - 1)%Z else y in
  let era := (y' / 400)%Z in
  let yoe := (y' - era * 400)%Z in
  let mp := if (m <=? 2)%Z then (m + 9)%Z else (m - 3)%Z in
  let doy := ((153 * mp + 2) / 5 + d - 1)%Z in
  let doe := (yoe * 365 + yoe / 4 - yoe / 100 + doy)%Z in
  (era * 146097 + doe - 719468)%Z.

(** The instant of a text of the form YYYY-MM-DD. *)
Definition iso_date (s : string) : option Z :=
  match String.list_ascii_of_string s with
  | [y1; y2; y3; y4; d1; m1; m2; d2; a1; a2] =>
      if bool_decide (d1 = "-"%char ∧ d2 = "-"%char) then
        y ← number 0 [y1; y2; y3; y4];
        m ← number 0 [m1; m2];
        d ← number 0 [a1; a2];
        if bool_decide (1 ≤ m ≤ 12 ∧ 1 ≤ d ≤ 31)%Z
        then Some (days_from_civil y m d * ns_per_day)%Z
        else None
      else None
  | _ => None
  end.

(** A parser that accepts exactly the texts YYYY-MM-DD and the null marker
    "NaT", whatever else the column holds. *)
Definition parse_iso_date (whole : list string) (s : string) : parsed :=
  match iso_date s with
  | Some t => Instant t
  | None => if decide (s = "NaT") then Missing else Malformed
  end.

(** Two transactions and two balances, already converted: user A at
    2024-01-01 10:00, user B without a timestamp. *)
Definition sample_transactions : list (txn datetime) :=
  [Txn (Some (19723 * ns_per_day + 36000000000000)%Z) "A" (CInt 9876543210)
     "credit" 100%Z;
   Txn None "B" (CInt 9123456780) "debit" (-50)%Z].

Definition sample_balances : list (bal datetime) :=
  [Bal "A" (CInt 9876543210) 200%Z None;
   Bal "B" (CInt 9123456780) 0%Z None].

(** The same user on two rows of the balances sheet. *)
Definition duplicate_balances : list (bal datetime) :=
  [Bal "A" (CInt 9876543210) 200%Z None;
   Bal "A" (CInt 9876543210) 350%Z None].

Definition sample_store : state :=
  load (DataFrame sample_transactions) (DataFrame sample_balances).

(** ** The sidebar on the first run (lines 108-117) *)


(** ** Further tables of the page (lines 251, 266-269, 331) *)

Definition of_type (ty : string) (r : txn datetime) : Prop := type r = ty.
Global Instance of_type_dec ty r : Decision (of_type ty r).
Proof. unfold of_type. apply _. Defined.

(** Line 251, [groupby("type")["amount"].sum().reset_index()] on the rows
    of the frame: one row per type, ascending, with the total amount. *)
Definition type_summary (df : list (txn datetime)) : list (string * Z) :=
  (λ ty, (ty, sum (amount <$> filter (of_type ty) df)))
    <$> merge_sort String.le (remove_dups (type <$> df)).

(** [Timestamp.dt.date]: the day of an instant, NaT for NaT. *)
Definition dt_date (r : txn datetime) : option date :=
  (λ t, t `div` ns_per_day)%Z <$> Timestamp r.

Definition on_day (d : date) (r : txn datetime) : Prop := dt_date r = Some d.
Global Instance on_day_dec d r : Decision (on_day d r).
Proof. unfold on_day. apply _. Defined.

(** Lines 266-269, [groupby(Timestamp.dt.date)["amount"].sum()] on the rows
    of the frame: one row per day, ascending, with the total amount; a
    group key that is null makes no group. *)
Definition daily_transactions (df : list (txn datetime)) : list (date * Z) :=
  (λ d, (d, sum (amount <$> filter (on_day d) df)))
    <$> merge_sort Z.le (remove_dups (omap dt_date df)).

(** A row put into rows that are in descending order of balance, before
    the first row that is not larger. *)
Fixpoint insert_desc (b : bal datetime) (l : list (bal datetime))
  : list (bal datetime) :=
  match l with
  | [] => [b]
  | x :: l' =>
      if bool_decide (Current_Balance x ≤ Current_Balance b)%Z
      then b :: l
      else x :: insert_desc b l'
  end.

(** Descending order of balance, rows of equal balance in their order. *)
Definition sort_desc (df : list (bal datetime)) : list (bal datetime) :=
  foldr insert_desc [] df.

(** [df.nlargest(n, "Current Balance")] on the rows of the frame; with the
    default [keep="first"] rows of equal balance come in their order. *)
Definition nlargest (n : nat) (df : list (bal datetime))
  : list (bal datetime) :=
  take n (sort_desc df).

(** Line 331. *)
Definition top_users (df : list (bal datetime)) : list (bal datetime) :=
  nlargest 5 df.

(** [b] is at least as large a balance as [b']. *)
Definition balance_ge (b b' : bal datetime) : Prop :=
  (Current_Balance b' ≤ Current_Balance b)%Z.

(** A statement that puts nothing on the page. *)
Definition silent {A} (m : M A) : Prop :=
  ∀ σ, page (m σ).2 = page σ.

(** What [errors="coerce"] and, for text that is not malformed,
    [errors="raise"] make of one cell. *)
Definition converted (parse : list string → string → parsed)
    (whole : list string) (s : string) : datetime :=
  if decide (s = "") then None
  else match parse whole s with
       | Instant t => Some t
       | _ => None
       end.

(** Six balances, two of them equal. *)
Definition six_balances : list (bal datetime) :=
  [Bal "A" (CInt 1) 200%Z None; Bal "B" (CInt 2) 0%Z None;
   Bal "C" (CInt 3) 350%Z None; Bal "D" (CInt 4) 200%Z None;
   Bal "E" (CInt 5) (-20)%Z None; Bal "F" (CInt 6) 75%Z None].

(** ** Masks and the rows they select *)

Lemma take_rows_fmap {R} (f : R → bool) (l : list R) :
  take_rows l (f <$> l) = filter (λ r, Is_true (f r)) l.
Proof.
  unfold take_rows. induction l as [|r l IH]; [done|].
  rewrite fmap_cons. cbn [zip zip_with]. rewrite !filter_cons. simpl.
  destruct (decide (f r)); simpl; by rewrite <-IH.
Qed.

Lemma take_rows_isin {R} (values : list string) (field : R → string)
    (l : list R) :
  take_rows l (isin values (field <$> l)) = filter (λ r, field r ∈ values) l.
Proof.
  unfold isin. rewrite <-list_fmap_compose, take_rows_fmap.
  apply list_filter_iff. intros r. simpl. by rewrite bool_decide_spec.
Qed.

Lemma take_rows_gt_0 {R} (field : R → Z) (l : list R) :
  take_rows l (series_gt_0 (field <$> l)) = filter (λ r, 0 < field r)%Z l.
Proof.
  unfold series_gt_0. rewrite <-list_fmap_compose, take_rows_fmap.
  apply list_filter_iff. intros r. simpl. by rewrite bool_decide_spec.
Qed.

Lemma take_rows_between (start_date end_date : date) (l : list (txn datetime)) :
  take_rows l
    (mask_and (series_ge (Timestamp <$> l) (date_to_datetime start_date))
              (series_le (Timestamp <$> l) (date_to_datetime end_date)))
  = filter (date_mask start_date end_date) l.
Proof.
  assert (mask_and (series_ge (Timestamp <$> l) (date_to_datetime start_date))
                   (series_le (Timestamp <$> l) (date_to_datetime end_date))
          = (λ r, datetime_ge (Timestamp r) (date_to_datetime start_date)
                  && datetime_le (Timestamp r) (date_to_datetime end_date))
            <$> l) as ->.
  { unfold mask_and, series_ge, series_le.
    induction l as [|r l IH]; [done|]. rewrite !fmap_cons. simpl. by rewrite IH. }
  rewrite take_rows_fmap. by apply list_filter_iff.
Qed.

(** ** Running the statements *)

Section runs.
Implicit Types (σ : state) (dt : list (txn datetime)) (db : list (bal datetime)).

Lemma transactions_of_rebind df σ :
  transactions_of (rebind_transactions df σ).2 = df.
Proof. unfold transactions_of; simpl. by rewrite lookup_insert_eq. Qed.

Lemma balances_of_rebind df σ :
  balances_of (rebind_balances df σ).2 = df.
Proof. unfold balances_of; simpl. by rewrite lookup_insert_eq. Qed.

Lemma apply_user_filter_run su σ dt db :
  transactions_of σ = Table dt → balances_of σ = Table db →
  apply_user_filter su σ =
    match su with
    | [] => (Ok (), σ)
    | _ :: _ =>
        rebind_balances (Table (filter (balance_user_mask su) db))
          (rebind_transactions (Table (filter (user_mask su) dt)) σ).2
    end.
Proof.
  intros Ht Hb. destruct su as [|u us]; [done|].
  unfold apply_user_filter, mbind, M_bind, get_transactions, get_balances, lift.
  rewrite Ht. cbn [column boolean_index]. rewrite take_rows_isin.
  cbn [rebind_transactions].
  change (balances_of _) with (balances_of σ). rewrite Hb.
  cbn [column boolean_index]. by rewrite take_rows_isin.
Qed.

Lemma apply_type_filter_run st σ dt :
  transactions_of σ = Table dt →
  apply_type_filter st σ = rebind_transactions (Table (type_filter st dt)) σ.
Proof.
  intros Ht.
  unfold apply_type_filter, mbind, M_bind, get_transactions, lift.
  rewrite Ht. cbn [column boolean_index]. by rewrite take_rows_isin.
Qed.

Lemma apply_date_filter_run dr σ dt :
  transactions_of σ = Table dt →
  apply_date_filter dr σ =
    match dr with
    | [_; _] => rebind_transactions (Table (date_filter dr dt)) σ
    | _ => (Ok (), σ)
    end.
Proof.
  intros Ht. destruct dr as [|s [|e [|? ?]]]; try done.
  unfold apply_date_filter, mbind, M_bind, get_transactions, lift.
  rewrite Ht. cbn [column boolean_index]. by rewrite take_rows_between.
Qed.

(** What the two names stand for after each filter statement, when the
    frames they stand for have their columns. *)
Lemma apply_user_filter_views su σ dt db :
  transactions_of σ = Table dt → balances_of σ = Table db →
  (apply_user_filter su σ).1 = Ok () ∧
  transactions_of (apply_user_filter su σ).2 = Table (user_filter su dt) ∧
  balances_of (apply_user_filter su σ).2 = Table (balance_user_filter su db).
Proof.
  intros Ht Hb. rewrite (apply_user_filter_run su σ dt db Ht Hb).
  destruct su as [|u su]; [done|].
  split_and!; [done| |by rewrite balances_of_rebind].
  unfold transactions_of at 1; simpl. by rewrite lookup_insert_eq.
Qed.

Lemma apply_type_filter_views st σ dt :
  transactions_of σ = Table dt →
  (apply_type_filter st σ).1 = Ok () ∧
  transactions_of (apply_type_filter st σ).2 = Table (type_filter st dt) ∧
  balances_of (apply_type_filter st σ).2 = balances_of σ.
Proof.
  intros Ht. rewrite (apply_type_filter_run st σ dt Ht).
  by rewrite transactions_of_rebind.
Qed.

Lemma apply_date_filter_views dr σ dt :
  transactions_of σ = Table dt →
  (apply_date_filter dr σ).1 = Ok () ∧
  transactions_of (apply_date_filter dr σ).2 = Table (date_filter dr dt) ∧
  balances_of (apply_date_filter dr σ).2 = balances_of σ.
Proof.
  intros Ht. rewrite (apply_date_filter_run dr σ dt Ht).
  destruct dr as [|s [|e [|? ?]]]; try done.
  by rewrite transactions_of_rebind.
Qed.
End runs.

(** ** Schema normaliser *)

Section normaliser_facts.
Variable parse : list string → string → parsed.

Lemma value_coerce_ok whole s :
  ∃ t, to_datetime.value parse errors_coerce whole s = Ok t.
Proof.
  unfold to_datetime.value. case_decide; [by eexists|].
  destruct (parse whole s); by eexists.
Qed.

Lemma value_raise_cases whole s :
  to_datetime.value parse errors_raise whole s = Raise ValueError ∨
  ∃ t, to_datetime.value parse errors_raise whole s = Ok t.
Proof.
  unfold to_datetime.value. case_decide; [right; by eexists|].
  destruct (parse whole s); [right; by eexists..|by left].
Qed.

Lemma value_empty errors whole :
  to_datetime.value parse errors whole "" = Ok None.
Proof. done. Qed.

Lemma value_malformed whole s :
  s ≠ "" → parse whole s = Malformed →
  to_datetime.value parse errors_raise whole s = Raise ValueError.
Proof.
  intros Hs Hp. unfold to_datetime.value. case_decide; [done|]. by rewrite Hp.
Qed.

(** Under "coerce" a column always converts, row for row. *)
Lemma values_coerce_ok whole col :
  ∃ ts, to_datetime.values parse errors_coerce whole col = Ok ts ∧
        length ts = length col.
Proof.
  induction col as [|s col (ts & IH & Hlen)]; [by exists []|].
  destruct (value_coerce_ok whole s) as [t Ht]. exists (t :: ts).
  simpl. rewrite Ht; simpl. rewrite IH; simpl. by rewrite Hlen.
Qed.

Lemma series_coerce_ok col :
  ∃ ts, to_datetime.series parse errors_coerce col = Ok ts ∧
        length ts = length col.
Proof. apply values_coerce_ok. Qed.

(** Under "raise" one malformed value anywhere aborts the column. *)
Lemma values_raise_malformed whole col s :
  s ∈ col → s ≠ "" → parse whole s = Malformed →
  to_datetime.values parse errors_raise whole col = Raise ValueError.
Proof.
  intros Hin Hs Hp. induction col as [|s' col IH]; [by apply elem_of_nil in Hin|].
  apply elem_of_cons in Hin as [<-|Hin]; simpl.
  - by rewrite value_malformed.
  - destruct (value_raise_cases whole s') as [->|[t ->]]; [done|].
    simpl. by rewrite IH.
Qed.

(** Under "raise" a column without malformed values converts, row for
    row. *)
Lemma values_raise_ok whole col :
  (∀ s, s ∈ col → s = "" ∨ parse whole s ≠ Malformed) →
  ∃ ts, to_datetime.values parse errors_raise whole col = Ok ts ∧
        length ts = length col.
Proof.
  induction col as [|s col IH]; intros Hcol; [by exists []|].
  destruct IH as (ts & IH & Hlen).
  { intros s' Hs'. apply Hcol. by right. }
  assert (∃ t, to_datetime.value parse errors_raise whole s = Ok t) as [t Ht].
  { unfold to_datetime.value. case_decide; [by eexists|].
    destruct (Hcol s) as [?|Hp]; [by left|done|].
    destruct (parse whole s); [by eexists..|done]. }
  exists (t :: ts). simpl. rewrite Ht; simpl. rewrite IH; simpl. by rewrite Hlen.
Qed.

Lemma series_raise_malformed col s :
  s ∈ col → s ≠ "" → parse col s = Malformed →
  to_datetime.series parse errors_raise col = Raise ValueError.
Proof. apply values_raise_malformed. Qed.
End normaliser_facts.

(** The "Last Updated" conversion of lines 97-102 never raises and keeps
    every row. *)
Lemma convert_Last_Updated_ok parse df :
  ∃ df', convert_Last_Updated parse df = Ok df' ∧ len df' = len df.
Proof.
  destruct df as [|l]; [by exists Empty|]. unfold convert_Last_Updated.
  destruct (series_coerce_ok parse (Last_Updated <$> l)) as (ts & -> & Hlen).
  eexists; split; [done|]. unfold len; simpl.
  rewrite length_zip_with, Hlen, length_fmap. lia.
Qed.

(** Without a malformed Timestamp the conversion of line 95 returns and
    keeps every row. *)
Lemma convert_Timestamp_ok parse (l : list (txn string)) :
  (∀ r, r ∈ l →
        Timestamp r = "" ∨ parse (Timestamp <$> l) (Timestamp r) ≠ Malformed) →
  ∃ l', convert_Timestamp parse (Table l) = Ok (Table l') ∧
        length l' = length l.
Proof.
  intros Hl. unfold convert_Timestamp, to_datetime.series.
  destruct (values_raise_ok parse (Timestamp <$> l) (Timestamp <$> l))
    as (ts & -> & Hlen).
  { intros s (r & -> & Hr)%list_elem_of_fmap. by apply Hl. }
  eexists; split; [done|].
  rewrite length_zip_with, Hlen, length_fmap. lia.
Qed.

(** An empty Timestamp cell alone does not stop the conversion of line 95:
    it becomes NaT. *)
Lemma convert_Timestamp_empty_cell parse u p ty a :
  convert_Timestamp parse (DataFrame [Txn "" u p ty a])
    = Ok (Table [Txn None u p ty a]).
Proof. done. Qed.

(** C3, on the code: the Timestamp conversion of line 95 runs under the
    default [errors="raise"], so one row whose Timestamp is text the parser
    rejects makes the whole script raise ValueError before anything is
    rendered; the value is not turned into a null timestamp. *)
Theorem C3_malformed_Timestamp_raises
    (parse_any parse_dmy_hms : list string → string → parsed)
    (transactions : list (txn string)) (balances : list (bal string))
    (c : criteria) (r : txn string) :
  r ∈ transactions → Timestamp r ≠ "" →
  parse_any (Timestamp <$> transactions) (Timestamp r) = Malformed →
  dashboard parse_any parse_dmy_hms transactions balances c
    = (Raise ValueError, None).
Proof.
  intros Hin Hs Hp. unfold dashboard.
  destruct transactions as [|r0 l]; [by apply elem_of_nil in Hin|].
  unfold DataFrame at 1, convert_Timestamp.
  rewrite (series_raise_malformed parse_any _ (Timestamp r)); [done| |done..].
  by apply list_elem_of_fmap_2.
Qed.

Lemma C3_malformed_Timestamp_raises_witness :
  dashboard parse_iso_date parse_iso_date
    [Txn "2024-01-01" "A" (CInt 9876543210) "credit" 100%Z;
     Txn "not a date" "B" (CInt 9123456780) "debit" (-50)%Z]
    [Bal "A" (CInt 9876543210) 200%Z "01/01/2024 10:00:00"]
    (Criteria [] ["credit"; "debit"] [])
  = (Raise ValueError, None).
Proof.
  apply (C3_malformed_Timestamp_raises _ _ _ _ _
           (Txn "not a date" "B" (CInt 9123456780) "debit" (-50)%Z)).
  - apply elem_of_cons; right. apply elem_of_cons; by left.
  - done.
  - reflexivity.
Defined.

(** ** Filter engine *)

(** C4: on frames that have their columns, the user filter of lines
    120-122 with a non-empty selection never raises and leaves in the
    transactions frame exactly the rows whose userName is in the selection
    and in the balances frame exactly the rows whose Username is in the
    selection, in their order; with the empty selection the statement does
    nothing at all, so both frames are the unfiltered ones. *)
Theorem C4_user_filter (u : string) (us : list string) (σ : state)
    (dt : list (txn datetime)) (db : list (bal datetime)) :
  transactions_of σ = Table dt → balances_of σ = Table db →
  let σ' := (apply_user_filter (u :: us) σ).2 in
  ((apply_user_filter (u :: us) σ).1 = Ok () ∧
   ∃ dt' db',
     transactions_of σ' = Table dt' ∧ balances_of σ' = Table db' ∧
     (∀ r, r ∈ dt' ↔ r ∈ dt ∧ userName r ∈ u :: us) ∧
     (∀ b, b ∈ db' ↔ b ∈ db ∧ Username b ∈ u :: us) ∧
     dt' `sublist_of` dt ∧ db' `sublist_of` db) ∧
  apply_user_filter [] σ = (Ok (), σ).
Proof.
  intros Ht Hb σ'. split; [|done].
  destruct (apply_user_filter_views (u :: us) σ dt db Ht Hb) as (Hok & Ht' & Hb').
  split; [done|]. eexists _, _. split_and!; [exact Ht'|exact Hb'| | |..].
  - intros r. simpl. rewrite list_elem_of_filter. unfold user_mask. tauto.
  - intros b. simpl. rewrite list_elem_of_filter. unfold balance_user_mask. tauto.
  - apply sublist_filter.
  - apply sublist_filter.
Qed.

Lemma C4_user_filter_witness :
  let σ := sample_store in
  let σ' := (apply_user_filter ["A"] σ).2 in
  ((apply_user_filter ["A"] σ).1 = Ok () ∧
   ∃ dt' db',
     transactions_of σ' = Table dt' ∧ balances_of σ' = Table db' ∧
     (∀ r, r ∈ dt' ↔ r ∈ sample_transactions ∧ userName r ∈ ["A"]) ∧
     (∀ b, b ∈ db' ↔ b ∈ sample_balances ∧ Username b ∈ ["A"]) ∧
     dt' `sublist_of` sample_transactions ∧
     db' `sublist_of` sample_balances) ∧
  apply_user_filter [] σ = (Ok (), σ).
Proof.
  intros σ.
  apply (C4_user_filter "A" [] σ sample_transactions sample_balances);
    reflexivity.
Defined.




(** The calendar day an instant falls on. *)
Lemma day_in_range (s e t : Z) :
  (s * ns_per_day ≤ t ≤ e * ns_per_day → s ≤ t `div` ns_per_day ≤ e)%Z.
Proof.
  unfold ns_per_day. intros [Hs He]. split.
  - apply Z.div_le_lower_bound; lia.
  - apply Z.div_le_upper_bound; lia.
Qed.

Lemma date_mask_spec s e r :
  date_mask s e r ↔
  ∃ t, Timestamp r = Some t ∧ (s * ns_per_day ≤ t ≤ e * ns_per_day)%Z.
Proof.
  unfold date_mask, datetime_ge, datetime_le, date_to_datetime.
  destruct (Timestamp r) as [t|]; simpl.
  - rewrite andb_True, !bool_decide_spec. split.
    + intros [??]. by exists t.
    + intros (? & [= <-] & ? & ?). done.
  - split; [done|]. by intros (? & ? & _).
Qed.

(** The bounds of the filter, read on calendar days: the start bound is the
    first instant of the start day, and so is the end bound of the end
    day. *)
Lemma midnight_bounds (s e t : Z) :
  (s * ns_per_day ≤ t ≤ e * ns_per_day ↔
   s ≤ t `div` ns_per_day ≤ e ∧
   (t `div` ns_per_day = e → t = e * ns_per_day))%Z.
Proof.
  assert (0 < ns_per_day)%Z as Hpos by done.
  pose proof (Z.div_mod t ns_per_day ltac:(lia)) as Hdm.
  pose proof (Z.mod_pos_bound t ns_per_day Hpos) as Hm.
  revert Hdm Hm. generalize (t `div` ns_per_day)%Z (t `mod` ns_per_day)%Z.
  intros q m Hdm Hm. unfold ns_per_day in *. lia.
Qed.

(** C6, on the code: on a transactions frame that has its columns, the date
    filter of lines 126-131 never raises and does nothing unless the picker
    holds exactly two dates; with a start and an end date, a row is in the
    frame afterwards exactly when it was there before, its Timestamp is not
    NaT and lies between the datetimes of the two dates, both included.
    The datetime of a date is its midnight, so the interval is not closed
    at the end date: no row with a NaT Timestamp is left and the day of
    every row left lies between the two dates, but a row stamped on the end
    day is left only when it is stamped at midnight sharp; any other row of
    the end day is dropped although its day lies in [start, end]. *)
Theorem C6_date_filter (σ : state) (dt : list (txn datetime)) :
  transactions_of σ = Table dt →
  (∀ start_date end_date : date,
     let σ' := (apply_date_filter [start_date; end_date] σ).2 in
     (apply_date_filter [start_date; end_date] σ).1 = Ok () ∧
     ∃ dt', transactions_of σ' = Table dt' ∧
       (∀ r, r ∈ dt' ↔
             r ∈ dt ∧
             ∃ t, Timestamp r = Some t ∧
                  (start_date * ns_per_day ≤ t ≤ end_date * ns_per_day)%Z) ∧
       (∀ r, r ∈ dt' → Timestamp r ≠ None) ∧
       (∀ r t, r ∈ dt' → Timestamp r = Some t →
               (start_date ≤ t `div` ns_per_day ≤ end_date)%Z) ∧
       dt' `sublist_of` dt ∧
       (∀ r, r ∈ dt' ↔
             r ∈ dt ∧
             ∃ t, Timestamp r = Some t ∧
                  (start_date ≤ t `div` ns_per_day ≤ end_date)%Z ∧
                  ((t `div` ns_per_day)%Z = end_date →
                   t = (end_date * ns_per_day)%Z)) ∧
       (∀ r t, r ∈ dt → Timestamp r = Some t →
               (start_date ≤ end_date)%Z →
               (t `div` ns_per_day)%Z = end_date →
               t ≠ (end_date * ns_per_day)%Z →
               (start_date ≤ t `div` ns_per_day ≤ end_date)%Z ∧ r ∉ dt')) ∧
  (∀ date_range : list date,
     length date_range ≠ 2 → apply_date_filter date_range σ = (Ok (), σ)).
Proof.
  intros Ht. split.
  - intros s e σ'.
    destruct (apply_date_filter_views [s; e] σ dt Ht) as (Hok & Ht' & _).
    split; [done|]. eexists. split; [exact Ht'|]. simpl.
    assert (Hiff : ∀ r, r ∈ filter (date_mask s e) dt ↔
      r ∈ dt ∧
      ∃ t, Timestamp r = Some t ∧ (s * ns_per_day ≤ t ≤ e * ns_per_day)%Z).
    { intros r. rewrite list_elem_of_filter, date_mask_spec. tauto. }
    split_and!; [done| | |apply sublist_filter| |].
    + intros r (_ & t & -> & _)%Hiff. done.
    + intros r t (_ & t' & Hr & Hrange)%Hiff Ht''.
      rewrite Hr in Ht''. injection Ht'' as ->. by apply day_in_range.
    + intros r. rewrite Hiff. split.
      * intros (Hr & t & Hts & Hrange). split; [done|]. exists t.
        split; [done|]. by apply midnight_bounds.
      * intros (Hr & t & Hts & Hday & Hend). split; [done|]. exists t.
        split; [done|]. by apply midnight_bounds.
    + intros r t Hr Hts Hse Hday Hne. split; [lia|].
      intros (_ & t' & Hts' & Hrange)%Hiff.
      rewrite Hts in Hts'. injection Hts' as <-.
      apply midnight_bounds in Hrange as [_ Hend]. by apply Hne, Hend.
  - intros dr Hlen. rewrite (apply_date_filter_run dr σ dt Ht).
    by destruct dr as [|? [|? [|? ?]]].
Qed.

(** The sample transaction of user A, stamped 2024-01-01 10:00, under the
    range 2023-12-31 to 2024-01-01: its day is the end day, and the filter
    drops it. *)
Lemma C6_date_filter_witness :
  let r := Txn (Some (19723 * ns_per_day + 36000000000000)%Z) "A"
             (CInt 9876543210) "credit" 100%Z in
  r ∈ sample_transactions ∧
  (19722 ≤ (19723 * ns_per_day + 36000000000000) `div` ns_per_day ≤ 19723)%Z ∧
  ∃ dt', transactions_of (apply_date_filter [19722; 19723]%Z sample_store).2
           = Table dt' ∧
         r ∉ dt'.
Proof.
  intros r.
  destruct (C6_date_filter sample_store sample_transactions eq_refl)
    as [Hrange _].
  destruct (Hrange 19722%Z 19723%Z) as (_ & dt' & Hdt' & _ & _ & _ & _ & _ & Hdrop).
  assert (r ∈ sample_transactions) as Hr by (by left).
  destruct (Hdrop r (19723 * ns_per_day + 36000000000000)%Z Hr eq_refl)
    as [Hday Hout]; [done..|].
  split; [done|]. split; [exact Hday|]. by exists dt'.
Defined.

(** ** Order of the filter statements *)

Lemma filter_all {A} (P : A → Prop) `{!∀ x, Decision (P x)} (l : list A) :
  (∀ x, P x) → filter P l = l.
Proof.
  intros HP. induction l as [|x l IH]; [done|].
  by rewrite filter_cons_True, IH.
Qed.

Lemma user_filter_keeps c (df : list (txn datetime)) :
  user_filter (selected_users c) df = filter (λ r, keeps c r by_user) df.
Proof.
  unfold user_filter; simpl. destruct (selected_users c) as [|u us] eqn:Hsu.
  - symmetry. apply filter_all. by left.
  - apply list_filter_iff. intros r. split; [by right|]. by intros [?|?].
Qed.

Lemma balance_user_filter_keeps c (df : list (bal datetime)) :
  balance_user_filter (selected_users c) df
    = filter (λ b, keeps_balance c b by_user) df.
Proof.
  unfold balance_user_filter; simpl. destruct (selected_users c) as [|u us] eqn:Hsu.
  - symmetry. apply filter_all. by left.
  - apply list_filter_iff. intros r. split; [by right|]. by intros [?|?].
Qed.

Lemma date_filter_keeps c (df : list (txn datetime)) :
  date_filter (date_range c) df = filter (λ r, keeps c r by_date) df.
Proof.
  unfold date_filter.
  destruct (date_range c) as [|s [|e [|? ?]]] eqn:Hdr;
    [symmetry; apply filter_all; intros r; simpl; by rewrite Hdr..| |
     symmetry; apply filter_all; intros r; simpl; by rewrite Hdr].
  apply list_filter_iff. intros r. simpl. by rewrite Hdr.
Qed.

(** One named statement, in terms of the rows it keeps. *)
Lemma apply_step_views c s σ dt db :
  transactions_of σ = Table dt → balances_of σ = Table db →
  (apply_step c s σ).1 = Ok () ∧
  transactions_of (apply_step c s σ).2
    = Table (filter (λ r, keeps c r s) dt) ∧
  balances_of (apply_step c s σ).2
    = Table (filter (λ b, keeps_balance c b s) db).
Proof.
  intros Ht Hb. destruct s; unfold apply_step.
  - destruct (apply_user_filter_views (selected_users c) σ dt db Ht Hb)
      as (Hok & Ht' & Hb').
    by rewrite Hok, Ht', Hb', user_filter_keeps, balance_user_filter_keeps.
  - destruct (apply_type_filter_views (selected_type c) σ dt Ht)
      as (Hok & Ht' & Hb').
    rewrite Hok, Ht', Hb', Hb.
    split_and!; [done..|]. f_equal. symmetry. by apply filter_all.
  - destruct (apply_date_filter_views (date_range c) σ dt Ht)
      as (Hok & Ht' & Hb').
    rewrite Hok, Ht', Hb', Hb, date_filter_keeps.
    split_and!; [done..|]. f_equal. symmetry. by apply filter_all.
Qed.

(** Any sequence of the statements keeps the rows that every statement in
    it keeps. *)
Lemma apply_steps_views c order σ dt db :
  transactions_of σ = Table dt → balances_of σ = Table db →
  (apply_steps c order σ).1 = Ok () ∧
  transactions_of (apply_steps c order σ).2
    = Table (filter (λ r, Forall (keeps c r) order) dt) ∧
  balances_of (apply_steps c order σ).2
    = Table (filter (λ b, Forall (keeps_balance c b) order) db).
Proof.
  revert σ dt db. induction order as [|s order IH]; intros σ dt db Ht Hb.
  - simpl. rewrite Ht, Hb.
    split_and!; [done|f_equal; symmetry; by apply filter_all..].
  - destruct (apply_step_views c s σ dt db Ht Hb) as (Hok & Ht' & Hb').
    change (apply_steps c (s :: order) σ)
      with (match apply_step c s σ with
            | (Ok _, σ') => apply_steps c order σ'
            | (Raise e, σ') => (Raise e, σ')
            end).
    destruct (apply_step c s σ) as [[[]|e] σ1]; [|done]. simpl in Ht', Hb'.
    destruct (IH σ1 _ _ Ht' Hb') as (-> & -> & ->). rewrite !list_filter_filter.
    split_and!; [done|f_equal; apply list_filter_iff..];
      intros x; rewrite Forall_cons; tauto.
Qed.

(** The script's own sequence is [script_order] followed by the coercion
    of the phone columns. *)
Lemma apply_filters_steps c σ :
  apply_filters c σ = (apply_steps c script_order;; fix_data_types) σ.
Proof.
  unfold apply_filters, script_order, apply_steps, apply_step.
  unfold mbind at 1 2 3 4 5 6 7, M_bind.
  destruct (apply_user_filter (selected_users c) σ) as [[[]|?] σ1]; [|done].
  destruct (apply_type_filter (selected_type c) σ1) as [[[]|?] σ2]; [|done].
  by destruct (apply_date_filter (date_range c) σ2) as [[[]|?] σ3].
Qed.

(** C7: on frames that have their columns, the user, type and date filter
    statements can run in any order: two orders that are rearrangements of
    each other never raise and leave the same rows, in the same sequence,
    in the transactions frame and in the balances frame.  In particular
    user-then-type equals type-then-user, and the date filter may come
    first, second or third. *)
Theorem C7_filters_commute (c : criteria) (σ : state)
    (dt : list (txn datetime)) (db : list (bal datetime))
    (order1 order2 : list filter_step) :
  transactions_of σ = Table dt → balances_of σ = Table db →
  order1 ≡ₚ order2 →
  (apply_steps c order1 σ).1 = Ok () ∧
  (apply_steps c order2 σ).1 = Ok () ∧
  transactions_of (apply_steps c order1 σ).2
    = transactions_of (apply_steps c order2 σ).2 ∧
  balances_of (apply_steps c order1 σ).2
    = balances_of (apply_steps c order2 σ).2.
Proof.
  intros Ht Hb Hperm.
  destruct (apply_steps_views c order1 σ dt db Ht Hb) as (-> & -> & ->).
  destruct (apply_steps_views c order2 σ dt db Ht Hb) as (-> & -> & ->).
  split_and!; [done..| |]; f_equal; apply list_filter_iff;
    intros x; by rewrite Hperm.
Qed.

Lemma C7_filters_commute_witness :
  let c := Criteria ["A"] ["credit"; "debit"] [19723; 19724]%Z in
  let σ := sample_store in
  (apply_steps c [by_date; by_type; by_user] σ).1 = Ok () ∧
  (apply_steps c script_order σ).1 = Ok () ∧
  transactions_of (apply_steps c [by_date; by_type; by_user] σ).2
    = transactions_of (apply_steps c script_order σ).2 ∧
  balances_of (apply_steps c [by_date; by_type; by_user] σ).2
    = balances_of (apply_steps c script_order σ).2.
Proof.
  intros c σ.
  apply (C7_filters_commute c σ sample_transactions sample_balances
           [by_date; by_type; by_user]); [reflexivity..|].
  unfold script_order.
  apply (@perm_trans _ _ [by_type; by_date; by_user]).
  - apply perm_swap.
  - apply (@perm_trans _ _ [by_type; by_user; by_date]).
    + apply perm_skip, perm_swap.
    + apply perm_swap.
Defined.

(** ** The store *)

Lemma run_ok (m : M unit) σ : (m σ).1 = Ok () → m σ = (Ok (), (m σ).2).
Proof. by destruct (m σ) as [[[]|?] ?]. Qed.

Lemma bind_ok {A B} (m : M A) (k : A → M B) σ a σ1 :
  m σ = (Ok a, σ1) → (m ≫= k) σ = k a σ1.
Proof. intros Hm. unfold mbind, M_bind. by rewrite Hm. Qed.

Lemma bind_raise {A B} (m : M A) (k : A → M B) σ e σ1 :
  m σ = (Raise e, σ1) → (m ≫= k) σ = (Raise e, σ1).
Proof. intros Hm. unfold mbind, M_bind. by rewrite Hm. Qed.

Lemma bind_render {B} e (k : unit → M B) σ :
  (render e ≫= k) σ = k () (render e σ).2.
Proof. done. Qed.

Lemma lookup_transactions σ dt :
  transactions_of σ = Table dt → tframes σ !! df_transactions σ = Some (Table dt).
Proof.
  unfold transactions_of.
  destruct (tframes σ !! df_transactions σ); simpl; [by intros ->|done].
Qed.

Lemma lookup_balances σ db :
  balances_of σ = Table db → bframes σ !! df_balances σ = Some (Table db).
Proof.
  unfold balances_of.
  destruct (bframes σ !! df_balances σ); simpl; [by intros ->|done].
Qed.

Lemma load_views (t : list (txn datetime)) (b : list (bal datetime)) :
  t ≠ [] → b ≠ [] →
  transactions_of (load (DataFrame t) (DataFrame b)) = Table t ∧
  balances_of (load (DataFrame t) (DataFrame b)) = Table b.
Proof. by destruct t, b. Qed.

(** Reading and rendering leave the frames and the names alone. *)
Lemma sidebar_options_run σ dt :
  transactions_of σ = Table dt →
  sidebar_options σ = (Ok (unique (userName <$> dt), unique (type <$> dt)), σ).
Proof.
  intros Ht. unfold sidebar_options, mbind, M_bind, get_transactions, lift.
  by rewrite Ht.
Qed.

Lemma sidebar_options_empty σ :
  transactions_of σ = Empty →
  sidebar_options σ = (Raise (KeyError "userName"), σ).
Proof.
  intros Ht. unfold sidebar_options, mbind, M_bind, get_transactions, lift.
  by rewrite Ht.
Qed.

Lemma reads_only_ret {A} (a : A) : reads_only (mret a).
Proof. done. Qed.

Lemma reads_only_lift {A} (r : result A) : reads_only (lift r).
Proof. done. Qed.

Lemma reads_only_get_transactions : reads_only get_transactions.
Proof. done. Qed.

Lemma reads_only_get_balances : reads_only get_balances.
Proof. done. Qed.

Lemma reads_only_render e : reads_only (render e).
Proof. done. Qed.

Lemma reads_only_bind {A B} (m : M A) (k : A → M B) :
  reads_only m → (∀ a, reads_only (k a)) → reads_only (m ≫= k).
Proof.
  intros Hm Hk σ. unfold mbind, M_bind.
  specialize (Hm σ). destruct (m σ) as [[a|e] σ1]; [|done].
  specialize (Hk a σ1). destruct Hm as (? & ? & ? & ?), Hk as (? & ? & ? & ?).
  unfold same_frames. simpl in *. split_and!; congruence.
Qed.

Ltac solve_reads_only :=
  repeat first
    [ apply reads_only_bind; [|intros ?]
    | apply reads_only_ret
    | apply reads_only_lift
    | apply reads_only_get_transactions
    | apply reads_only_get_balances
    | apply reads_only_render ].

Lemma key_metrics_frames σ : same_frames σ (key_metrics σ).2.
Proof.
  revert σ. change (reads_only key_metrics).
  unfold key_metrics, compute_totals, metric1, metric2, metric3, metric4.
  solve_reads_only.
Qed.

Lemma performance_chart_frames σ : same_frames σ (performance_chart σ).2.
Proof.
  revert σ. change (reads_only performance_chart).
  unfold performance_chart. solve_reads_only.
Qed.

Lemma fix_phoneNumber_nil {T} : fix_phoneNumber (@nil (txn T)) = [].
Proof. done. Qed.

Lemma fix_Phone_nil {T} : fix_Phone (@nil (bal T)) = [].
Proof. done. Qed.

Lemma fix_data_types_views σ dt db :
  transactions_of σ = Table dt → balances_of σ = Table db →
  (fix_data_types σ).1 = Ok () ∧
  transactions_of (fix_data_types σ).2 = Table (fix_phoneNumber dt) ∧
  balances_of (fix_data_types σ).2 = Table (fix_Phone db).
Proof.
  intros Ht Hb.
  pose proof (lookup_transactions σ dt Ht) as Hlt.
  pose proof (lookup_balances σ db Hb) as Hlb.
  unfold fix_data_types, mbind, M_bind, lift, get_transactions, get_balances.
  rewrite Ht. cbn [column update_transactions].
  change (balances_of (State _ (bframes σ) _ (df_balances σ) _))
    with (balances_of σ).
  rewrite Hb. cbn [column update_balances].
  unfold transactions_of, balances_of; simpl.
  by rewrite !lookup_alter_eq, Hlt, Hlb.
Qed.

(** Lines 119-135 as a whole, on frames that have their columns, never
    raise; afterwards the names stand for the filtered rows with the phone
    columns as text. *)
Lemma apply_filters_views c σ dt db :
  transactions_of σ = Table dt → balances_of σ = Table db →
  (apply_filters c σ).1 = Ok () ∧
  transactions_of (apply_filters c σ).2
    = Table (fix_phoneNumber
               (date_filter (date_range c)
                  (type_filter (selected_type c)
                     (user_filter (selected_users c) dt)))) ∧
  balances_of (apply_filters c σ).2
    = Table (fix_Phone (balance_user_filter (selected_users c) db)).
Proof.
  intros Ht Hb. unfold apply_filters.
  destruct (apply_user_filter_views (selected_users c) σ dt db Ht Hb)
    as (Hok1 & Ht1 & Hb1).
  rewrite (bind_ok _ _ _ _ _ (run_ok _ _ Hok1)).
  destruct (apply_type_filter_views (selected_type c) _ _ Ht1)
    as (Hok2 & Ht2 & Hb2).
  rewrite (bind_ok _ _ _ _ _ (run_ok _ _ Hok2)).
  destruct (apply_date_filter_views (date_range c) _ _ Ht2)
    as (Hok3 & Ht3 & Hb3).
  rewrite (bind_ok _ _ _ _ _ (run_ok _ _ Hok3)).
  rewrite Hb2, Hb1 in Hb3.
  exact (fix_data_types_views _ _ _ Ht3 Hb3).
Qed.

Lemma script_run c σ dt :
  transactions_of σ = Table dt → balances_of σ = Table (rows (balances_of σ)) →
  script c σ =
    match key_metrics (apply_filters c σ).2 with
    | (Ok _, σ') => performance_chart σ'
    | (Raise e, σ') => (Raise e, σ')
    end.
Proof.
  intros Ht Hb. unfold script.
  rewrite (bind_ok _ _ _ _ _ (sidebar_options_run σ dt Ht)).
  destruct (apply_filters_views c σ dt _ Ht Hb) as (Hok & _).
  rewrite (bind_ok _ _ _ _ _ (run_ok _ _ Hok)).
  done.
Qed.

Lemma script_frames c σ dt db :
  transactions_of σ = Table dt → balances_of σ = Table db →
  same_frames (apply_filters c σ).2 (script c σ).2.
Proof.
  intros Ht Hb. rewrite (script_run c σ dt Ht) by (by rewrite Hb).
  pose proof (key_metrics_frames (apply_filters c σ).2) as Hk.
  destruct (key_metrics _) as [[[]|?] σ']; [|done].
  destruct Hk as (? & ? & ? & ?).
  destruct (performance_chart_frames σ') as (? & ? & ? & ?).
  unfold same_frames. simpl in *. split_and!; congruence.
Qed.

(** Coercing a phone column that is text already changes nothing. *)
Lemma fix_Phone_text (df : list (bal datetime)) :
  Forall (λ b, ∃ s, Phone b = CStr s) df → fix_Phone df = df.
Proof.
  unfold fix_Phone. induction 1 as [|b df [s Hs] _ IH]; [done|].
  cbn [fmap list_fmap zip_with]. rewrite IH. f_equal.
  destruct b; simpl in *. by rewrite Hs.
Qed.

(** The coercion touches the Phone column only. *)
Lemma fix_Phone_other_columns {T} (df : list (bal T)) :
  length (fix_Phone df) = length df ∧
  Username <$> fix_Phone df = Username <$> df ∧
  Current_Balance <$> fix_Phone df = Current_Balance <$> df ∧
  Last_Updated <$> fix_Phone df = Last_Updated <$> df ∧
  Phone <$> fix_Phone df = astype_str <$> (Phone <$> df).
Proof.
  unfold fix_Phone. induction df as [|b df (IH1 & IH2 & IH3 & IH4 & IH5)]; [done|].
  cbn [fmap list_fmap zip_with length].
  rewrite IH1. cbn [fmap] in IH2, IH3, IH4, IH5.
  by rewrite IH2, IH3, IH4, IH5.
Qed.

(** When a sheet has no record its frame has no column, and the script
    stops with KeyError before any frame is written to. *)
Lemma script_no_transactions c (b : frame (bal datetime)) :
  script c (load Empty b) = (Raise (KeyError "userName"), load Empty b).
Proof. done. Qed.

(** C8, as the code has it: after the script has run on frames loaded from
    sheets with at least one record each, the loaded transactions frame is
    still in the store unchanged and the name df_transactions refers to
    another frame.  With a non-empty user selection the same holds for the
    balances frame.  With the empty user selection the name df_balances
    still refers to the loaded balances frame, and line 135 has replaced
    its Phone column by text in that frame. *)
Theorem C8_loaded_frames_after_script (t : list (txn datetime))
    (b : list (bal datetime)) (c : criteria) :
  t ≠ [] → b ≠ [] →
  let σ := load (DataFrame t) (DataFrame b) in
  let σ' := (script c σ).2 in
  (tframes σ' !! df_transactions σ = Some (Table t) ∧
   df_transactions σ' ≠ df_transactions σ) ∧
  match selected_users c with
  | [] =>
      df_balances σ' = df_balances σ ∧
      bframes σ' !! df_balances σ = Some (Table (fix_Phone b))
  | _ :: _ =>
      df_balances σ' ≠ df_balances σ ∧
      bframes σ' !! df_balances σ = Some (Table b)
  end.
Proof.
  intros Hne_t Hne_b σ σ'.
  destruct (load_views t b Hne_t Hne_b) as [Hlt Hlb].
  destruct (script_frames c _ t b Hlt Hlb) as (Ht & Hb & Hnt & Hnb).
  subst σ' σ. rewrite Ht, Hb, Hnt, Hnb. clear -Hne_t Hne_b.
  destruct t as [|r t]; [done|]. destruct b as [|b0 b]; [done|].
  destruct c as [su st dr]. unfold apply_filters, apply_user_filter; simpl.
  destruct su as [|u us], dr as [|s [|e [|? ?]]]; vm_compute; repeat split; lia.
Qed.

Lemma C8_loaded_frames_after_script_witness :
  let c := Criteria [] ["credit"; "debit"] [] in
  let σ := sample_store in
  let σ' := (script c σ).2 in
  (tframes σ' !! df_transactions σ = Some (Table sample_transactions) ∧
   df_transactions σ' ≠ df_transactions σ) ∧
  df_balances σ' = df_balances σ ∧
  bframes σ' !! df_balances σ = Some (Table (fix_Phone sample_balances)).
Proof.
  intros c.
  apply (C8_loaded_frames_after_script sample_transactions sample_balances c);
    discriminate.
Defined.

(** C8 as stated fails: with no user selected, the loaded balances frame
    holds text phone numbers after the run where it held numbers before. *)
Lemma C8_loaded_balances_changed :
  let σ := sample_store in
  let σ' := (script (Criteria [] ["credit"; "debit"] []) σ).2 in
  ¬ (tframes σ' !! df_transactions σ = tframes σ !! df_transactions σ ∧
     bframes σ' !! df_balances σ = bframes σ !! df_balances σ).
Proof. vm_compute. intros [_ [=]]. Qed.

(** C10: on a transactions frame that has its columns, the type filter and
    the date filter, run one after the other, never raise and leave the
    balances alone: every balances frame is as before and df_balances
    refers to the same frame.  Hence after lines 120-131 the balances are
    the ones before narrowed by the user filter only, whatever the
    selected types and the date range. *)
Theorem C10_balances_frame (c : criteria) (σ : state)
    (dt : list (txn datetime)) (db : list (bal datetime)) :
  transactions_of σ = Table dt → balances_of σ = Table db →
  (let σ' :=
     ((apply_type_filter (selected_type c);;
       apply_date_filter (date_range c)) σ).2 in
   ((apply_type_filter (selected_type c);;
     apply_date_filter (date_range c)) σ).1 = Ok () ∧
   bframes σ' = bframes σ ∧ df_balances σ' = df_balances σ) ∧
  balances_of (apply_steps c script_order σ).2
    = Table (balance_user_filter (selected_users c) db).
Proof.
  intros Ht Hb. split.
  - unfold mbind, M_bind.
    rewrite (apply_type_filter_run _ σ dt Ht).
    pose proof (transactions_of_rebind
                  (Table (type_filter (selected_type c) dt)) σ) as Ht'.
    destruct (rebind_transactions _ σ) as [[[]|?] σ1] eqn:Hrun; [|done].
    assert (bframes σ1 = bframes σ ∧ df_balances σ1 = df_balances σ) as [Hb1 Hn1].
    { by injection Hrun as <-. }
    rewrite (apply_date_filter_run _ σ1 _ Ht').
    by destruct (date_range c) as [|s [|e [|? ?]]].
  - destruct (apply_steps_views c script_order σ dt db Ht Hb) as (_ & _ & ->).
    rewrite balance_user_filter_keeps. f_equal. apply list_filter_iff.
    intros x. unfold script_order. rewrite !Forall_cons, Forall_nil. simpl. tauto.
Qed.

Lemma C10_balances_frame_witness :
  let c := Criteria ["A"] ["credit"] [19723; 19724]%Z in
  let σ := sample_store in
  (let σ' :=
     ((apply_type_filter (selected_type c);;
       apply_date_filter (date_range c)) σ).2 in
   ((apply_type_filter (selected_type c);;
     apply_date_filter (date_range c)) σ).1 = Ok () ∧
   bframes σ' = bframes σ ∧ df_balances σ' = df_balances σ) ∧
  balances_of (apply_steps c script_order σ).2
    = Table (balance_user_filter (selected_users c) sample_balances).
Proof.
  intros c σ.
  apply (C10_balances_frame c σ sample_transactions sample_balances);
    reflexivity.
Defined.

(** ** Metrics aggregator *)

Lemma apply_filters_page c σ dt db :
  transactions_of σ = Table dt → balances_of σ = Table db →
  page (apply_filters c σ).2 = page σ.
Proof.
  intros Ht Hb. unfold apply_filters.
  destruct (apply_user_filter_views (selected_users c) σ dt db Ht Hb)
    as (Hok1 & Ht1 & Hb1).
  rewrite (bind_ok _ _ _ _ _ (run_ok _ _ Hok1)).
  destruct (apply_type_filter_views (selected_type c) _ _ Ht1)
    as (Hok2 & Ht2 & Hb2).
  rewrite (bind_ok _ _ _ _ _ (run_ok _ _ Hok2)).
  destruct (apply_date_filter_views (date_range c) _ _ Ht2)
    as (Hok3 & Ht3 & Hb3).
  rewrite (bind_ok _ _ _ _ _ (run_ok _ _ Hok3)).
  rewrite Hb2, Hb1 in Hb3.
  transitivity (page (apply_date_filter (date_range c)
                        (apply_type_filter (selected_type c)
                           (apply_user_filter (selected_users c) σ).2).2).2).
  { unfold fix_data_types, mbind, M_bind, lift, get_transactions, get_balances.
    rewrite Ht3. cbn [column update_transactions].
    match goal with
    | |- context [balances_of (State ?tf ?bf ?lt ?lb ?pg)] =>
        change (balances_of (State tf bf lt lb pg))
          with (balances_of (apply_date_filter (date_range c)
                  (apply_type_filter (selected_type c)
                     (apply_user_filter (selected_users c) σ).2).2).2)
    end.
    by rewrite Hb3. }
  rewrite (apply_date_filter_run _ _ _ Ht2).
  transitivity (page (apply_type_filter (selected_type c)
                        (apply_user_filter (selected_users c) σ).2).2).
  { by destruct (date_range c) as [|s [|e [|? ?]]]. }
  rewrite (apply_type_filter_run _ _ _ Ht1).
  rewrite (apply_user_filter_run _ _ _ _ Ht Hb).
  by destruct (selected_users c).
Qed.

Lemma compute_totals_run σ dt db :
  transactions_of σ = Table dt → balances_of σ = Table db →
  compute_totals σ =
    (Ok (Totals (length db) (sum (Current_Balance <$> db)) (length dt)
           (mean (Current_Balance <$> db))), σ).
Proof.
  intros Ht Hb.
  unfold compute_totals, mbind, M_bind, get_transactions, get_balances, lift.
  by rewrite Hb, Ht.
Qed.

Lemma metric1_run t σ db :
  balances_of σ = Table db →
  metric1 t σ =
    render (Metric "Total Users" (CInt (Z.of_nat (total_users t)))
              (Some (str_of_int
                       (Z.of_nat (length (filter positive_balance db)))
                     +:+ " active"))) σ.
Proof.
  intros Hb. unfold metric1, mbind, M_bind, get_balances, lift.
  rewrite Hb. cbn [column boolean_index len rows].
  by rewrite take_rows_gt_0.
Qed.

Lemma metric4_run t σ dt :
  transactions_of σ = Table dt →
  metric4 t σ =
    match truediv (Z.of_nat (length (filter positive_amount dt)))
            (Z.of_nat (total_transactions t)) with
    | Ok ratio =>
        render (Metric "Positive Transactions"
                  (CInt (Z.of_nat (length (filter positive_amount dt))))
                  (Some (format_f false 1 (Fin (ratio * 100)) +:+ "%"))) σ
    | Raise e => (Raise e, σ)
    end.
Proof.
  intros Ht. unfold metric4, mbind, M_bind, get_transactions, lift.
  rewrite Ht. cbn [column boolean_index len rows].
  by rewrite take_rows_gt_0.
Qed.

(** On frames that have their columns the first three tiles are rendered
    whatever happens in the fourth. *)
Lemma key_metrics_page σ dt db :
  transactions_of σ = Table dt → balances_of σ = Table db →
  ∃ rest,
    page (key_metrics σ).2 =
      page σ ++
      [Metric "Total Users" (CInt (Z.of_nat (length db)))
         (Some (str_of_int (Z.of_nat (length (filter positive_balance db)))
                +:+ " active"));
       Metric "Total Balance"
         (CStr ("₹" +:+ format_f true 0
                  (Fin (inject_Z (sum (Current_Balance <$> db))))))
         (Some ("Avg: ₹" +:+ format_f false 0 (mean (Current_Balance <$> db))));
       Metric "Total Transactions" (CInt (Z.of_nat (length dt))) None]
      ++ rest ∧
    ((key_metrics σ).1 = Ok () ∨ rest = []) ∧
    (length dt = 0 → (key_metrics σ).1 = Raise ZeroDivisionError ∧ rest = []).
Proof.
  intros Ht Hb. destruct (key_metrics σ) as [r σ'] eqn:Hrun.
  unfold key_metrics in Hrun.
  rewrite (bind_ok _ _ _ _ _ (compute_totals_run σ dt db Ht Hb)) in Hrun.
  rewrite (bind_ok _ _ σ () (render _ σ).2 (metric1_run _ σ db Hb)) in Hrun.
  unfold metric2, metric3 in Hrun.
  rewrite !bind_render in Hrun.
  rewrite (metric4_run _ _ dt) in Hrun by done.
  cbn [total_transactions total_users total_balance avg_balance] in Hrun.
  destruct (truediv _ (Z.of_nat (length dt))) as [q|e] eqn:Hdiv;
    injection Hrun as <- <-; cbn [fst snd render page].
  - eexists [_]. rewrite <-!app_assoc. split_and!; [done|by left|].
    intros Hz. rewrite Hz in Hdiv. done.
  - exists []. rewrite <-!app_assoc. split_and!; [done|by right|].
    intros Hz. rewrite Hz in Hdiv. unfold truediv in Hdiv.
    rewrite decide_True in Hdiv by done. by injection Hdiv as <-.
Qed.

Lemma script_page c σ dt db :
  transactions_of σ = Table dt → balances_of σ = Table db →
  page (key_metrics (apply_filters c σ).2).2 `prefix_of` page (script c σ).2 ∧
  ((key_metrics (apply_filters c σ).2).1 = Raise ZeroDivisionError →
   (script c σ).1 = Raise ZeroDivisionError ∧
   page (script c σ).2 = page (key_metrics (apply_filters c σ).2).2).
Proof.
  intros Ht Hb. rewrite (script_run c σ dt Ht) by (by rewrite Hb).
  destruct (key_metrics _) as [[[]|?] σ']; simpl.
  - split; [|done]. unfold performance_chart, mbind, M_bind, lift,
      get_transactions, get_balances.
    destruct (column _ _ (transactions_of σ')); [|done].
    destruct (column _ _ (balances_of σ')); [|done].
    by apply prefix_app_r.
  - split; [done|]. by intros [= ->].
Qed.

(** C1, on the code: on sheets with at least one record each, when no
    transaction is left after the filters the script raises
    ZeroDivisionError at line 174; the "Positive Transactions" tile is not
    rendered, so no percentage is reported. *)
Theorem C1_no_transactions_raises (t : list (txn datetime))
    (b : list (bal datetime)) (c : criteria) :
  t ≠ [] → b ≠ [] →
  date_filter (date_range c)
    (type_filter (selected_type c) (user_filter (selected_users c) t)) = [] →
  let run := script c (load (DataFrame t) (DataFrame b)) in
  run.1 = Raise ZeroDivisionError ∧
  ∀ value delta, Metric "Positive Transactions" value delta ∉ page run.2.
Proof.
  intros Hne_t Hne_b Hempty run. subst run.
  destruct (load_views t b Hne_t Hne_b) as [Hlt Hlb].
  destruct (apply_filters_views c _ t b Hlt Hlb) as (_ & Ht & Hb).
  rewrite Hempty, fix_phoneNumber_nil in Ht.
  destruct (key_metrics_page _ _ _ Ht Hb) as (rest & Hpage & _ & Hzero).
  destruct (Hzero eq_refl) as [Hraise ->].
  destruct (script_page c _ t b Hlt Hlb) as [_ Hscript].
  destruct (Hscript Hraise) as [-> ->]. split; [done|].
  rewrite Hpage, (apply_filters_page c _ t b Hlt Hlb). simpl.
  intros v d. rewrite !elem_of_cons, elem_of_nil.
  intros [[=]|[[=]|[[=]|[]]]].
Qed.

Lemma C1_no_transactions_raises_witness :
  let run := script (Criteria [] [] []) sample_store in
  run.1 = Raise ZeroDivisionError ∧
  ∀ value delta, Metric "Positive Transactions" value delta ∉ page run.2.
Proof.
  apply (C1_no_transactions_raises sample_transactions sample_balances
           (Criteria [] [] [])); [discriminate..|reflexivity].
Defined.

(** C2, as the code has it: on sheets with at least one record each, when
    no balance row is left after the user filter, nothing raises while the
    totals are computed, and the mean of line 144 is NaN, pandas' missing
    value, which is neither zero nor a text of its own: the "Total Balance"
    tile is rendered with value ₹0 and delta "Avg: ₹nan", whether or not a
    later statement of the script raises. *)
Theorem C2_no_balances_average (t : list (txn datetime))
    (b : list (bal datetime)) (c : criteria) :
  t ≠ [] → b ≠ [] →
  balance_user_filter (selected_users c) b = [] →
  let σ := load (DataFrame t) (DataFrame b) in
  avg_balance <$> (compute_totals (apply_filters c σ).2).1 = Ok NaN ∧
  total_users <$> (compute_totals (apply_filters c σ).2).1 = Ok 0 ∧
  Metric "Total Balance" (CStr "₹0") (Some "Avg: ₹nan") ∈ page (script c σ).2.
Proof.
  intros Hne_t Hne_b Hempty σ. subst σ.
  destruct (load_views t b Hne_t Hne_b) as [Hlt Hlb].
  destruct (apply_filters_views c _ t b Hlt Hlb) as (_ & Ht & Hb).
  rewrite Hempty, fix_Phone_nil in Hb.
  rewrite (compute_totals_run _ _ _ Ht Hb).
  split_and!; [done..|].
  eapply elem_of_prefix; [|apply (script_page c _ t b Hlt Hlb)].
  destruct (key_metrics_page _ _ _ Ht Hb) as (rest & -> & _).
  apply elem_of_app; right. apply elem_of_app; left.
  apply elem_of_cons; right. apply elem_of_cons; by left.
Qed.

Lemma C2_no_balances_average_witness :
  let c := Criteria ["A"] ["credit"; "debit"] [] in
  let σ := load (DataFrame sample_transactions)
             (DataFrame [Bal "B" (CInt 9123456780) 0%Z None]) in
  avg_balance <$> (compute_totals (apply_filters c σ).2).1 = Ok NaN ∧
  total_users <$> (compute_totals (apply_filters c σ).2).1 = Ok 0 ∧
  Metric "Total Balance" (CStr "₹0") (Some "Avg: ₹nan") ∈ page (script c σ).2.
Proof.
  intros c.
  apply (C2_no_balances_average sample_transactions
           [Bal "B" (CInt 9123456780) 0%Z None] c);
    [discriminate..|reflexivity].
Defined.

(** The claim as written fails on two inputs.  With the sample transactions,
    a balances sheet that holds user B only and user A selected, no balance
    row is left: the average is NaN, not zero, and the one "Total Balance"
    tile reads "Avg: ₹nan".  With a CurrentBalances sheet without records
    the balances frame has no row either, and the script stops with
    KeyError before any tile. *)
Lemma C2_average_not_a_sentinel :
  (let c := Criteria ["A"] ["credit"; "debit"] [] in
   let σ := load (DataFrame sample_transactions)
              (DataFrame [Bal "B" (CInt 9123456780) 0%Z None]) in
   len (balances_of (apply_filters c σ).2) = 0 ∧
   avg_balance <$> (compute_totals (apply_filters c σ).2).1 = Ok NaN ∧
   NaN ≠ Fin 0 ∧
   Metric "Total Balance" (CStr "₹0") (Some "Avg: ₹nan") ∈ page (script c σ).2 ∧
   ∀ value delta, Metric "Total Balance" value delta ∈ page (script c σ).2 →
                  delta = Some "Avg: ₹nan") ∧
  (let c := Criteria [] ["credit"; "debit"] [] in
   let σ := load (DataFrame sample_transactions) (DataFrame []) in
   len (balances_of σ) = 0 ∧
   (script c σ).1 = Raise (KeyError "Phone") ∧
   page (script c σ).2 = []).
Proof.
  split.
  - intros c σ. split_and!; [reflexivity|reflexivity|discriminate| |].
    + vm_compute. apply elem_of_cons; right. apply elem_of_cons; by left.
    + intros value delta. vm_compute. intros Hin.
      repeat (apply elem_of_cons in Hin as [Hin|Hin];
              [by inversion Hin|]).
      by apply elem_of_nil in Hin.
  - intros c σ. split_and!; reflexivity.
Qed.

(** ** Per-user view *)

Lemma group_keys_NoDup dt : NoDup (group_keys dt).
Proof.
  unfold group_keys. rewrite merge_sort_Permutation. apply NoDup_remove_dups.
Qed.

Lemma elem_of_group_keys dt u : u ∈ group_keys dt ↔ u ∈ userName <$> dt.
Proof.
  unfold group_keys. by rewrite merge_sort_Permutation, elem_of_remove_dups.
Qed.

(** The keys come out in ascending order. *)
Lemma group_keys_sorted dt : Sorted String.le (group_keys dt).
Proof. apply (Sorted_merge_sort String.le). Qed.

Lemma merge_row_left db s p : p ∈ merge_row db s → left_row p = s.
Proof.
  unfold merge_row. destruct (filter _ db) as [|b bs].
  - by intros ->%list_elem_of_singleton.
  - by intros (? & -> & _)%list_elem_of_fmap.
Qed.

Lemma filter_all_in {A} (P : A → Prop) `{!∀ x, Decision (P x)} (l : list A) :
  (∀ x, x ∈ l → P x) → filter P l = l.
Proof.
  induction l as [|x l IH]; intros HP; [done|].
  rewrite filter_cons_True by (apply HP; by left).
  rewrite IH; [done|]. intros y Hy. apply HP. by right.
Qed.

Lemma filter_none_in {A} (P : A → Prop) `{!∀ x, Decision (P x)} (l : list A) :
  (∀ x, x ∈ l → ¬ P x) → filter P l = [].
Proof.
  induction l as [|x l IH]; intros HP; [done|].
  rewrite filter_cons_False by (apply HP; by left).
  apply IH. intros y Hy. apply HP. by right.
Qed.

(** The rows of the merged table that belong to one user. *)
Lemma merge_left_for_user dt db u keys :
  NoDup keys →
  filter (for_user u) (merge_left (aggregate dt <$> keys) db)
    = if decide (u ∈ keys) then merge_row db (aggregate dt u) else [].
Proof.
  unfold merge_left. induction 1 as [|k keys Hk Hnd IH].
  - rewrite decide_False; [done|]. apply not_elem_of_nil.
  - rewrite fmap_cons, bind_cons, filter_app, IH.
    destruct (decide (k = u)) as [->|Hne].
    + rewrite (decide_False (P := u ∈ keys)) by done.
      rewrite (decide_True (P := u ∈ u :: keys)) by (by left).
      rewrite app_nil_r. apply filter_all_in.
      intros p Hp. unfold for_user. by rewrite (merge_row_left _ _ _ Hp).
    + rewrite filter_none_in.
      * simpl. apply decide_ext. rewrite elem_of_cons.
        split; [by right|]. by intros [?|?].
      * intros p Hp. unfold for_user. by rewrite (merge_row_left _ _ _ Hp).
Qed.

Lemma merge_row_length db s :
  length (merge_row db s)
    = length (filter (matches (summary_userName s)) db) `max` 1.
Proof.
  unfold merge_row. destruct (filter _ db) as [|b bs]; [done|].
  rewrite !length_fmap. simpl. lia.
Qed.

Lemma fmap_constant {A B} (f : A → B) (y : B) (l : list A) :
  (∀ x, x ∈ l → f x = y) → f <$> l = replicate (length l) y.
Proof.
  induction l as [|x l IH]; intros Hf; [done|].
  rewrite fmap_cons, Hf by (by left). simpl. f_equal.
  apply IH. intros z Hz. apply Hf. by right.
Qed.

Lemma merge_row_right db s :
  match filter (matches (summary_userName s)) db with
  | [] => merge_row db s = [Performance s None]
  | b :: bs => right_row <$> merge_row db s = Some <$> b :: bs
  end.
Proof.
  unfold merge_row. destruct (filter _ db) as [|b bs]; [done|].
  generalize (b :: bs). intros l.
  induction l as [|x l IH]; [done|]. rewrite !fmap_cons. by rewrite IH.
Qed.


(** C9, as the code has it: the per-user view is the left merge of the
    per-user aggregates with the balance rows.  For a user with at least
    one transaction, the rows of the view for that user all carry the
    user's aggregate (sum and count of the amounts of the user's
    transactions, type of the user's first transaction); there is one such
    row per balance row with that Username, holding these balance rows in
    order, and exactly one row, with null balance columns, when no balance
    row matches.  So the user appears once when at most one balance row
    matches. *)
Theorem C9_user_rows (dt : list (txn datetime)) (db : list (bal datetime))
    (u : string) :
  u ∈ userName <$> dt →
  let rows := filter (for_user u) (user_performance dt db) in
  let g := filter (of_user u) dt in
  let bs := filter (matches u) db in
  (∃ r g', g = r :: g' ∧
     aggregate dt u = Summary u (sum (amount <$> g)) (length g) (type r)) ∧
  left_row <$> rows = replicate (length rows) (aggregate dt u) ∧
  length rows = length bs `max` 1 ∧
  (length bs ≤ 1 → length rows = 1) ∧
  match bs with
  | [] => rows = [Performance (aggregate dt u) None]
  | _ :: _ => right_row <$> rows = Some <$> bs
  end.
Proof.
  intros Hu rows g bs.
  assert (Hrows : rows = merge_row db (aggregate dt u)).
  { subst rows. unfold user_performance, user_summary.
    rewrite merge_left_for_user by apply group_keys_NoDup.
    by rewrite decide_True by by apply elem_of_group_keys. }
  assert (Hlen : length rows = length bs `max` 1).
  { rewrite Hrows. apply merge_row_length. }
  split_and!.
  - apply list_elem_of_fmap in Hu as (r0 & Hr0 & Hin).
    assert (Hg : r0 ∈ g) by (apply list_elem_of_filter; by split).
    unfold aggregate. fold g. destruct g as [|r g']; [by apply elem_of_nil in Hg|].
    by exists r, g'.
  - rewrite Hrows. apply fmap_constant. intros p. apply merge_row_left.
  - done.
  - lia.
  - rewrite Hrows. pose proof (merge_row_right db (aggregate dt u)) as Hr.
    simpl in Hr. fold bs in Hr. by destruct bs.
Qed.

Lemma C9_user_rows_witness :
  let dt := sample_transactions in
  let db := duplicate_balances in
  let rows := filter (for_user "B") (user_performance dt db) in
  let g := filter (of_user "B") dt in
  let bs := filter (matches "B") db in
  (∃ r g', g = r :: g' ∧
     aggregate dt "B" = Summary "B" (sum (amount <$> g)) (length g) (type r)) ∧
  left_row <$> rows = replicate (length rows) (aggregate dt "B") ∧
  length rows = length bs `max` 1 ∧
  (length bs ≤ 1 → length rows = 1) ∧
  match bs with
  | [] => rows = [Performance (aggregate dt "B") None]
  | _ :: _ => right_row <$> rows = Some <$> bs
  end.
Proof.
  intros dt db. apply (C9_user_rows dt db "B").
  apply elem_of_cons; right. apply elem_of_cons; by left.
Defined.

(** C9 as stated fails: a user whose name is on two balance rows appears
    twice in the per-user view. *)
Lemma C9_user_appears_twice :
  "A" ∈ userName <$> sample_transactions ∧
  length (filter (for_user "A")
            (user_performance sample_transactions duplicate_balances)) ≠ 1.
Proof. split; [by left|]. vm_compute. lia. Qed.

(** ** The two worked examples of the specification *)

(** Transactions of A (credit, 100) and B (debit, -50) with user A
    selected: one transaction is left, and it is positive. *)
Example spec_example_transactions :
  let σ := (script (Criteria ["A"] ["credit"; "debit"] []) sample_store).2 in
  userName <$> rows (transactions_of σ) = ["A"] ∧
  Metric "Total Transactions" (CInt 1) None ∈ page σ ∧
  Metric "Positive Transactions" (CInt 1) (Some "100.0%") ∈ page σ.
Proof.
  vm_compute. split_and!; [done|..].
  - do 2 right. by left.
  - do 3 right. by left.
Qed.

(** Balances of A (200) and B (0): two users, one active, total 200,
    average 100. *)
Example spec_example_balances :
  let σ := (script (Criteria [] ["credit"; "debit"] []) sample_store).2 in
  Metric "Total Users" (CInt 2) (Some "1 active") ∈ page σ ∧
  Metric "Total Balance" (CStr "₹200") (Some "Avg: ₹100") ∈ page σ.
Proof.
  vm_compute. split.
  - by left.
  - right. by left.
Qed.

(** ** The sidebar on the first run *)






(** ** Sheets without records *)

Lemma silent_ret {A} (a : A) : silent (mret a).
Proof. done. Qed.

Lemma silent_lift {A} (r : result A) : silent (lift r).
Proof. done. Qed.

Lemma silent_get_transactions : silent get_transactions.
Proof. done. Qed.

Lemma silent_get_balances : silent get_balances.
Proof. done. Qed.

Lemma silent_rebind_transactions df : silent (rebind_transactions df).
Proof. done. Qed.

Lemma silent_rebind_balances df : silent (rebind_balances df).
Proof. done. Qed.

Lemma silent_update_transactions f : silent (update_transactions f).
Proof. done. Qed.

Lemma silent_update_balances f : silent (update_balances f).
Proof. done. Qed.

Lemma silent_bind {A B} (m : M A) (k : A → M B) :
  silent m → (∀ a, silent (k a)) → silent (m ≫= k).
Proof.
  intros Hm Hk σ. unfold mbind, M_bind.
  specialize (Hm σ). destruct (m σ) as [[a|e] σ1]; [|done].
  rewrite <-Hm. apply Hk.
Qed.

Ltac solve_silent :=
  repeat first
    [ apply silent_bind; [|intros ?]
    | apply silent_ret
    | apply silent_lift
    | apply silent_get_transactions
    | apply silent_get_balances
    | apply silent_rebind_transactions
    | apply silent_rebind_balances
    | apply silent_update_transactions
    | apply silent_update_balances ].

(** Lines 105-135 put nothing on the page, whatever the frames. *)
Lemma silent_sidebar_options : silent sidebar_options.
Proof. unfold sidebar_options. solve_silent. Qed.

Lemma silent_apply_filters c : silent (apply_filters c).
Proof.
  unfold apply_filters, apply_user_filter, apply_type_filter,
    apply_date_filter, fix_data_types.
  destruct (selected_users c), (date_range c) as [|? [|? [|? ?]]];
    solve_silent.
Qed.

(** X2: a Transactions sheet without records gives a frame without
    columns, and the script stops with KeyError on "userName" at line 109,
    whatever the balances sheet and the selection, with nothing on the
    page. *)
Theorem no_transaction_records_KeyError
    (parse_any parse_dmy_hms : list string → string → parsed)
    (balances : list (bal string)) (c : criteria) :
  ∃ σ, dashboard parse_any parse_dmy_hms [] balances c
         = (Raise (KeyError "userName"), Some σ) ∧
       page σ = [] ∧ transactions_of σ = Empty.
Proof.
  unfold dashboard. simpl.
  destruct (convert_Last_Updated_ok parse_dmy_hms (DataFrame balances))
    as (db & -> & _).
  rewrite script_no_transactions. by eexists.
Qed.

(** The filters of lines 120-131 when the balances frame has no column. *)
Lemma apply_user_filter_no_balances u us σ dt :
  transactions_of σ = Table dt → balances_of σ = Empty →
  (apply_user_filter (u :: us) σ).1 = Raise (KeyError "Username").
Proof.
  intros Ht Hb.
  unfold apply_user_filter, mbind, M_bind, get_transactions, get_balances, lift.
  rewrite Ht. cbn [column boolean_index rebind_transactions].
  change (balances_of (State _ (bframes σ) _ (df_balances σ) _))
    with (balances_of σ).
  by rewrite Hb.
Qed.

Lemma fix_data_types_no_balances σ dt :
  transactions_of σ = Table dt → balances_of σ = Empty →
  (fix_data_types σ).1 = Raise (KeyError "Phone").
Proof.
  intros Ht Hb.
  unfold fix_data_types, mbind, M_bind, get_transactions, get_balances, lift.
  rewrite Ht. cbn [column update_transactions].
  change (balances_of (State _ (bframes σ) _ (df_balances σ) _))
    with (balances_of σ).
  by rewrite Hb.
Qed.

Lemma apply_filters_no_balances c σ dt :
  transactions_of σ = Table dt → balances_of σ = Empty →
  (apply_filters c σ).1 =
    Raise (KeyError match selected_users c with
                    | [] => "Phone"
                    | _ :: _ => "Username"
                    end).
Proof.
  intros Ht Hb. unfold apply_filters.
  destruct (selected_users c) as [|u us] eqn:Hsu.
  - rewrite (bind_ok _ _ σ () σ eq_refl).
    destruct (apply_type_filter_views (selected_type c) σ dt Ht)
      as (Hok2 & Ht2 & Hb2).
    rewrite (bind_ok _ _ _ _ _ (run_ok _ _ Hok2)).
    destruct (apply_date_filter_views (date_range c) _ _ Ht2)
      as (Hok3 & Ht3 & Hb3).
    rewrite (bind_ok _ _ _ _ _ (run_ok _ _ Hok3)).
    rewrite Hb2, Hb in Hb3.
    exact (fix_data_types_no_balances _ _ Ht3 Hb3).
  - pose proof (apply_user_filter_no_balances u us σ dt Ht Hb) as Hraise.
    destruct (apply_user_filter (u :: us) σ) as [r σ1] eqn:Hrun.
    simpl in Hraise. subst r.
    by rewrite (bind_raise _ _ _ _ _ Hrun).
Qed.

(** X3: when the transactions frame has its columns and the
    CurrentBalances sheet had no record, the script stops with KeyError
    before any tile is rendered: on "Username" at line 122 when users are
    selected, on "Phone" at line 135 when none is. *)
Theorem no_balance_records_KeyError (c : criteria) (σ : state)
    (dt : list (txn datetime)) :
  transactions_of σ = Table dt → balances_of σ = Empty →
  (script c σ).1 =
    Raise (KeyError match selected_users c with
                    | [] => "Phone"
                    | _ :: _ => "Username"
                    end) ∧
  page (script c σ).2 = page σ.
Proof.
  intros Ht Hb. unfold script.
  rewrite (bind_ok _ _ _ _ _ (sidebar_options_run σ dt Ht)).
  pose proof (apply_filters_no_balances c σ dt Ht Hb) as Hraise.
  pose proof (silent_apply_filters c σ) as Hpage.
  destruct (apply_filters c σ) as [r σ1] eqn:Hrun. simpl in Hraise, Hpage.
  subst r. by rewrite (bind_raise _ _ _ _ _ Hrun).
Qed.

Lemma no_balance_records_KeyError_witness :
  let c := Criteria ["A"] ["credit"] [] in
  let σ := load (DataFrame sample_transactions) (DataFrame []) in
  (script c σ).1 = Raise (KeyError "Username") ∧
  page (script c σ).2 = page σ.
Proof.
  intros c σ.
  apply (no_balance_records_KeyError c σ sample_transactions); reflexivity.
Defined.

(** ** When the script completes *)







(** ** The phone columns after lines 134-135 *)

Lemma fix_phoneNumber_Forall {T} (l : list (txn T)) :
  Forall (λ r, ∃ s, phoneNumber r = CStr s) (fix_phoneNumber l).
Proof.
  unfold fix_phoneNumber. induction l as [|r l IH]; [done|].
  cbn [fmap list_fmap zip_with]. constructor; [|done].
  simpl. destruct (phoneNumber r); by eexists.
Qed.

Lemma fix_Phone_Forall {T} (l : list (bal T)) :
  Forall (λ b, ∃ s, Phone b = CStr s) (fix_Phone l).
Proof.
  unfold fix_Phone. induction l as [|b l IH]; [done|].
  cbn [fmap list_fmap zip_with]. constructor; [|done].
  simpl. destruct (Phone b); by eexists.
Qed.

Lemma fix_phoneNumber_text (df : list (txn datetime)) :
  Forall (λ r, ∃ s, phoneNumber r = CStr s) df → fix_phoneNumber df = df.
Proof.
  unfold fix_phoneNumber. induction 1 as [|r df [s Hs] _ IH]; [done|].
  cbn [fmap list_fmap zip_with]. rewrite IH. f_equal.
  destruct r; simpl in *. by rewrite Hs.
Qed.

(** X6: on frames that have their columns, after lines 119-135 every
    phoneNumber cell of the transactions frame and every Phone cell of the
    balances frame is text, whatever the sheet held, and coercing the two
    columns once more would change nothing. *)
Theorem phone_columns_are_text (c : criteria) (σ : state)
    (dt : list (txn datetime)) (db : list (bal datetime)) :
  transactions_of σ = Table dt → balances_of σ = Table db →
  ∃ dt' db',
    transactions_of (apply_filters c σ).2 = Table dt' ∧
    balances_of (apply_filters c σ).2 = Table db' ∧
    (∀ r, r ∈ dt' → ∃ s, phoneNumber r = CStr s) ∧
    (∀ b, b ∈ db' → ∃ s, Phone b = CStr s) ∧
    fix_phoneNumber dt' = dt' ∧ fix_Phone db' = db'.
Proof.
  intros Ht Hb.
  destruct (apply_filters_views c σ dt db Ht Hb) as (_ & Ht' & Hb').
  eexists _, _. split_and!; [exact Ht'|exact Hb'|..].
  - apply Forall_forall, fix_phoneNumber_Forall.
  - apply Forall_forall, fix_Phone_Forall.
  - apply fix_phoneNumber_text, fix_phoneNumber_Forall.
  - apply fix_Phone_text, fix_Phone_Forall.
Qed.

Lemma phone_columns_are_text_witness :
  let c := Criteria [] ["credit"; "debit"] [] in
  let σ := sample_store in
  ∃ dt' db',
    transactions_of (apply_filters c σ).2 = Table dt' ∧
    balances_of (apply_filters c σ).2 = Table db' ∧
    (∀ r, r ∈ dt' → ∃ s, phoneNumber r = CStr s) ∧
    (∀ b, b ∈ db' → ∃ s, Phone b = CStr s) ∧
    fix_phoneNumber dt' = dt' ∧ fix_Phone db' = db'.
Proof.
  intros c σ.
  apply (phone_columns_are_text c σ sample_transactions sample_balances);
    reflexivity.
Defined.

(** ** Wider selections *)

Lemma filter_sublist_impl {A} (P Q : A → Prop)
    `{!∀ x, Decision (P x), !∀ x, Decision (Q x)} (l : list A) :
  (∀ x, P x → Q x) → filter P l `sublist_of` filter Q l.
Proof.
  intros HPQ. induction l as [|x l IH]; [done|].
  rewrite !filter_cons. destruct (decide (P x)) as [HP|HP].
  - rewrite decide_True by auto. by apply sublist_skip.
  - destruct (decide (Q x)); [by apply sublist_cons|done].
Qed.

(** X7: on frames that have their columns, widening the selection never
    hides a row: when every selected type of one selection is selected in
    another, the date range is the same, and the other selects no user at
    all or at least the users of the first (which selects some), the rows
    lines 120-131 leave under the first are among the rows they leave
    under the other, in the same order, in both frames. *)
Theorem wider_selection_keeps_more (c c' : criteria) (σ : state)
    (dt : list (txn datetime)) (db : list (bal datetime)) :
  transactions_of σ = Table dt → balances_of σ = Table db →
  selected_users c' = [] ∨
    (selected_users c ≠ [] ∧ selected_users c ⊆ selected_users c') →
  selected_type c ⊆ selected_type c' →
  date_range c = date_range c' →
  ∃ l l' k k',
    transactions_of (apply_steps c script_order σ).2 = Table l ∧
    transactions_of (apply_steps c' script_order σ).2 = Table l' ∧
    balances_of (apply_steps c script_order σ).2 = Table k ∧
    balances_of (apply_steps c' script_order σ).2 = Table k' ∧
    l `sublist_of` l' ∧ k `sublist_of` k'.
Proof.
  intros Ht Hb Hu Hty Hdr.
  destruct (apply_steps_views c script_order σ dt db Ht Hb) as (_ & Hl & Hk).
  destruct (apply_steps_views c' script_order σ dt db Ht Hb) as (_ & Hl' & Hk').
  eexists _, _, _, _. split_and!; [exact Hl|exact Hl'|exact Hk|exact Hk'|..].
  - apply filter_sublist_impl. intros r. unfold script_order.
    rewrite !Forall_cons, !Forall_nil. simpl. rewrite <-Hdr.
    unfold user_mask, type_mask. intros ([Hn|Hin] & Hin' & Hd & _).
    + split_and!; [|by apply Hty|done..].
      destruct Hu as [?|[? _]]; [by left|done].
    + split_and!; [|by apply Hty|done..].
      destruct Hu as [?|[_ Hsub]]; [by left|right; by apply Hsub].
  - apply filter_sublist_impl. intros b. unfold script_order.
    rewrite !Forall_cons, !Forall_nil. simpl.
    unfold balance_user_mask. intros ([Hn|Hin] & _).
    + split_and!; [|done..]. destruct Hu as [?|[? _]]; [by left|done].
    + split_and!; [|done..].
      destruct Hu as [?|[_ Hsub]]; [by left|right; by apply Hsub].
Qed.

Lemma wider_selection_keeps_more_witness :
  let c := Criteria ["A"] ["credit"] [] in
  let c' := Criteria ["A"; "B"] ["credit"; "debit"] [] in
  let σ := sample_store in
  ∃ l l' k k',
    transactions_of (apply_steps c script_order σ).2 = Table l ∧
    transactions_of (apply_steps c' script_order σ).2 = Table l' ∧
    balances_of (apply_steps c script_order σ).2 = Table k ∧
    balances_of (apply_steps c' script_order σ).2 = Table k' ∧
    l `sublist_of` l' ∧ k `sublist_of` k'.
Proof.
  intros c c' σ.
  apply (wider_selection_keeps_more c c' σ sample_transactions sample_balances);
    [reflexivity|reflexivity| | |reflexivity].
  - right. split; [discriminate|].
    intros u ->%list_elem_of_singleton. by left.
  - intros ty ->%list_elem_of_singleton. by left.
Defined.

(** ** The end of the date range *)



(** ** Grouped totals *)

Lemma sum_app (l1 l2 : list Z) : sum (l1 ++ l2) = (sum l1 + sum l2)%Z.
Proof. unfold sum. induction l1 as [|x l1 IH]; simpl; lia. Qed.

Lemma sum_ones {A} (l : list A) :
  sum ((λ _, 1%Z) <$> l) = Z.of_nat (length l).
Proof.
  unfold sum. induction l as [|x l IH]; [done|].
  cbn [fmap list_fmap foldr length] in *. lia.
Qed.

Section grouped.
Context {A K : Type} `{EqDecision K}.
Variable key : A → option K.
Variable P : K → A → Prop.
Context `{!∀ k x, Decision (P k x)}.
Hypothesis P_key : ∀ k x, P k x ↔ key x = Some k.
Variable g : A → Z.

(** One more member for the group [k0]. *)
Lemma sum_one_more (a : K → Z) (v : Z) (k0 : K) (keys : list K) :
  NoDup keys →
  sum ((λ k, if decide (k = k0) then v + a k else a k)%Z <$> keys)
    = ((if decide (k0 ∈ keys) then v else 0) + sum (a <$> keys))%Z.
Proof.
  induction 1 as [|k keys Hk Hnd IH].
  - rewrite decide_False; [done|]. apply not_elem_of_nil.
  - rewrite !fmap_cons. cbn [sum foldr]. fold (sum (a <$> keys)).
    change (foldr Z.add 0%Z ?l) with (sum l). rewrite IH.
    destruct (decide (k = k0)) as [->|Hne].
    + rewrite (decide_False (P := k0 ∈ keys)) by done.
      rewrite (decide_True (P := k0 ∈ k0 :: keys)) by (by left). lia.
    + destruct (decide (k0 ∈ keys)) as [Hin|Hin].
      * rewrite decide_True by (by right). lia.
      * rewrite decide_False; [lia|].
        rewrite elem_of_cons. intros [?|?]; [congruence|done].
Qed.

(** The totals of the groups add up to the total of the rows that have a
    key. *)
Lemma sum_groups (keys : list K) (l : list A) :
  NoDup keys →
  (∀ x k, x ∈ l → key x = Some k → k ∈ keys) →
  sum ((λ k, sum (g <$> filter (P k) l)) <$> keys)
    = sum (g <$> filter (λ x, is_Some (key x)) l).
Proof using All.
  intros Hnd. induction l as [|x l IH]; intros Hkeys.
  - clear. induction keys as [|k keys IH]; [done|].
    rewrite fmap_cons. unfold sum in *. cbn [foldr]. rewrite IH. done.
  - assert (∀ x k, x ∈ l → key x = Some k → k ∈ keys) as Hkeys'.
    { intros y k Hy. apply Hkeys. by right. }
    specialize (IH Hkeys'). destruct (key x) as [k0|] eqn:Hx.
    + rewrite filter_cons_True by (by rewrite Hx).
      rewrite fmap_cons. cbn [sum foldr]. change (foldr Z.add 0%Z ?l) with (sum l).
      rewrite <-IH.
      rewrite <-(decide_True (P := k0 ∈ keys) (g x) 0%Z)
        by (apply (Hkeys x); [by left|done]).
      rewrite <-sum_one_more by done. f_equal. apply list_fmap_ext.
      intros _ k _. destruct (decide (k = k0)) as [->|Hne].
      * rewrite filter_cons_True by (by apply P_key). done.
      * rewrite filter_cons_False; [done|].
        rewrite P_key, Hx. congruence.
    + rewrite filter_cons_False by (rewrite Hx; by intros [? ?]).
      rewrite <-IH. f_equal. apply list_fmap_ext. intros _ k _.
      rewrite filter_cons_False; [done|]. rewrite P_key, Hx. congruence.
Qed.
End grouped.

Lemma fst_fmap_pair {A B} (f : A → B) (l : list A) :
  ((λ x, (x, f x)) <$> l).*1 = l.
Proof.
  rewrite <-list_fmap_compose. rewrite <-(list_fmap_id l) at 2.
  by apply list_fmap_ext.
Qed.

(** X9: the table of line 251 has one row per type that occurs among the
    transactions, in ascending order of type, and its totals add up to the
    total amount of the transactions. *)
Theorem type_summary_totals (df : list (txn datetime)) :
  NoDup (type_summary df).*1 ∧
  Sorted String.le (type_summary df).*1 ∧
  (∀ ty, ty ∈ (type_summary df).*1 ↔ ty ∈ type <$> df) ∧
  (∀ ty total, (ty, total) ∈ type_summary df →
               total = sum (amount <$> filter (of_type ty) df)) ∧
  sum (type_summary df).*2 = sum (amount <$> df).
Proof.
  unfold type_summary.
  set (keys := merge_sort String.le (remove_dups (type <$> df))).
  assert (Hnd : NoDup keys).
  { unfold keys. rewrite merge_sort_Permutation. apply NoDup_remove_dups. }
  assert (Hin : ∀ ty, ty ∈ keys ↔ ty ∈ type <$> df).
  { intros ty. unfold keys.
    by rewrite merge_sort_Permutation, elem_of_remove_dups. }
  rewrite (fst_fmap_pair _ keys).
  split_and!; [done|apply (Sorted_merge_sort String.le)|done| |].
  - intros ty total (ty' & [= -> ->] & _)%list_elem_of_fmap. done.
  - rewrite <-list_fmap_compose.
    change (sum ((λ k, sum (amount <$> filter (of_type k) df)) <$> keys)
            = sum (amount <$> df)).
    rewrite (sum_groups (λ r, Some (type r)) of_type) with (g := amount).
    + f_equal. f_equal. apply filter_all. by eexists.
    + intros k r. unfold of_type. split; [by intros ->|by intros [= ->]].
    + done.
    + intros r k Hr [= <-]. apply Hin. by apply list_elem_of_fmap_2.
Qed.

(** X10: the table of lines 266-269 has one row per calendar day on which
    some transaction is stamped, in ascending order of day; a transaction
    without a timestamp is in no day, and the daily totals add up to the
    total amount of the transactions that have a timestamp. *)
Theorem daily_transactions_totals (df : list (txn datetime)) :
  NoDup (daily_transactions df).*1 ∧
  Sorted Z.le (daily_transactions df).*1 ∧
  (∀ d, d ∈ (daily_transactions df).*1 ↔
        ∃ r t, r ∈ df ∧ Timestamp r = Some t ∧ d = (t `div` ns_per_day)%Z) ∧
  (∀ d total, (d, total) ∈ daily_transactions df →
              total = sum (amount <$> filter (on_day d) df)) ∧
  sum (daily_transactions df).*2
    = sum (amount <$> filter (λ r, is_Some (Timestamp r)) df).
Proof.
  unfold daily_transactions.
  set (keys := merge_sort Z.le (remove_dups (omap dt_date df))).
  assert (Hnd : NoDup keys).
  { unfold keys. rewrite merge_sort_Permutation. apply NoDup_remove_dups. }
  assert (Hin : ∀ d, d ∈ keys ↔ ∃ r, r ∈ df ∧ dt_date r = Some d).
  { intros d. unfold keys.
    by rewrite merge_sort_Permutation, elem_of_remove_dups, list_elem_of_omap. }
  rewrite (fst_fmap_pair _ keys).
  split_and!; [done|apply (Sorted_merge_sort Z.le)| | |].
  - intros d. rewrite Hin. unfold dt_date. split.
    + intros (r & Hr & Hd). destruct (Timestamp r) as [t|] eqn:Ht; [|done].
      injection Hd as <-. by exists r, t.
    + intros (r & t & Hr & Ht & ->). exists r. by rewrite Ht.
  - intros d total (d' & [= -> ->] & _)%list_elem_of_fmap. done.
  - rewrite <-list_fmap_compose.
    change (sum ((λ k, sum (amount <$> filter (on_day k) df)) <$> keys)
            = sum (amount <$> filter (λ r, is_Some (Timestamp r)) df)).
    rewrite (sum_groups dt_date on_day) with (g := amount).
    + f_equal. f_equal. apply list_filter_iff. intros r.
      unfold dt_date. by rewrite fmap_is_Some.
    + done.
    + done.
    + intros r k Hr Hk. apply Hin. by exists r.
Qed.

(** X11: the per-user aggregate of lines 361-365 has one row per user that
    occurs among the transactions, in ascending order of user, every row
    counting at least one transaction; the totals add up to the total
    amount and the counts to the number of transactions. *)
Theorem user_summary_totals (df : list (txn datetime)) :
  NoDup (summary_userName <$> user_summary df) ∧
  Sorted String.le (summary_userName <$> user_summary df) ∧
  (∀ u, u ∈ summary_userName <$> user_summary df ↔ u ∈ userName <$> df) ∧
  (∀ s, s ∈ user_summary df → 1 ≤ transaction_count s) ∧
  sum (total_amount <$> user_summary df) = sum (amount <$> df) ∧
  sum ((λ s, Z.of_nat (transaction_count s)) <$> user_summary df)
    = Z.of_nat (length df).
Proof.
  unfold user_summary.
  assert (Hkeys : summary_userName <$> (aggregate df <$> group_keys df)
                  = group_keys df).
  { rewrite <-list_fmap_compose. rewrite <-(list_fmap_id (group_keys df)) at 2.
    by apply list_fmap_ext. }
  assert (Hpk : ∀ k r, of_user k r ↔ Some (userName r) = Some k).
  { intros k r. unfold of_user. split; [by intros ->|by intros [= ->]]. }
  assert (Hcover : ∀ r k, r ∈ df → Some (userName r) = Some k → k ∈ group_keys df).
  { intros r k Hr [= <-]. apply elem_of_group_keys. by apply list_elem_of_fmap_2. }
  rewrite Hkeys.
  split_and!; [apply group_keys_NoDup|apply group_keys_sorted
              |apply elem_of_group_keys| | |].
  - intros s (u & -> & Hu)%list_elem_of_fmap. simpl.
    apply elem_of_group_keys, list_elem_of_fmap in Hu as (r & -> & Hr).
    assert (r ∈ filter (of_user (userName r)) df) as Hin
      by (by apply list_elem_of_filter).
    destruct (filter _ df); [by apply elem_of_nil in Hin|simpl; lia].
  - rewrite <-list_fmap_compose.
    change (sum ((λ k, sum (amount <$> filter (of_user k) df))
                   <$> group_keys df) = sum (amount <$> df)).
    rewrite (sum_groups (λ r, Some (userName r)) of_user Hpk amount
               (group_keys df) df (group_keys_NoDup df) Hcover).
    f_equal. f_equal. apply filter_all. by eexists.
  - rewrite <-list_fmap_compose.
    transitivity (sum ((λ k, sum ((λ _, 1%Z) <$> filter (of_user k) df))
                         <$> group_keys df)).
    { f_equal. apply list_fmap_ext. intros _ k _. simpl. by rewrite sum_ones. }
    rewrite (sum_groups (λ r, Some (userName r)) of_user Hpk (λ _, 1%Z)
               (group_keys df) df (group_keys_NoDup df) Hcover).
    rewrite sum_ones. f_equal. f_equal. apply filter_all. by eexists.
Qed.

(** ** The five largest balances *)

Lemma insert_desc_Permutation b l : insert_desc b l ≡ₚ b :: l.
Proof.
  induction l as [|x l IH]; [done|]. simpl. case_bool_decide; [done|].
  rewrite IH. apply perm_swap.
Qed.

Lemma sort_desc_Permutation l : sort_desc l ≡ₚ l.
Proof.
  unfold sort_desc. induction l as [|b l IH]; [done|].
  simpl. by rewrite insert_desc_Permutation, IH.
Qed.

Lemma insert_desc_sorted b l :
  StronglySorted balance_ge l → StronglySorted balance_ge (insert_desc b l).
Proof.
  induction 1 as [|x l Hl IH Hx]; simpl.
  - by repeat constructor.
  - case_bool_decide as Hle.
    + constructor; [by constructor|]. constructor; [done|].
      eapply Forall_impl; [exact Hx|]. unfold balance_ge. intros y ?. lia.
    + constructor; [done|]. rewrite insert_desc_Permutation.
      constructor; [unfold balance_ge; lia|done].
Qed.

Lemma sort_desc_sorted l : StronglySorted balance_ge (sort_desc l).
Proof.
  unfold sort_desc. induction l as [|b l IH]; [constructor|].
  simpl. by apply insert_desc_sorted.
Qed.

(** X12: the table of line 331 holds five balance rows, or all of them
    when there are fewer, in descending order of balance; they are rows of
    the frame, each as often as it is there, and no row left out has a
    larger balance than a row that is in. *)
Theorem top_users_largest (df : list (bal datetime)) :
  length (top_users df) = length df `min` 5 ∧
  StronglySorted balance_ge (top_users df) ∧
  (length df ≤ 5 → top_users df ≡ₚ df) ∧
  ∃ left_out,
    top_users df ++ left_out ≡ₚ df ∧
    ∀ b b', b ∈ top_users df → b' ∈ left_out →
            (Current_Balance b' ≤ Current_Balance b)%Z.
Proof.
  unfold top_users, nlargest.
  pose proof (sort_desc_sorted df) as Hs.
  pose proof (sort_desc_Permutation df) as Hp.
  rewrite <-(take_drop 5 (sort_desc df)) in Hs.
  split_and!.
  - rewrite length_take, Hp. lia.
  - by apply StronglySorted_app_1_l in Hs.
  - intros Hlen. rewrite take_ge; [done|]. by rewrite Hp.
  - exists (drop 5 (sort_desc df)). split; [by rewrite take_drop|].
    intros b b' Hb Hb'.
    exact (StronglySorted_app_1_elem_of _ _ _ _ _ Hs Hb Hb').
Qed.

(** ** The merged table *)

Lemma filter_matches_unique u (db : list (bal datetime)) :
  NoDup (Username <$> db) → length (filter (matches u) db) ≤ 1.
Proof.
  induction db as [|b db IH]; [simpl; lia|].
  rewrite fmap_cons, NoDup_cons. intros [Hb Hnd].
  rewrite filter_cons. destruct (decide (matches u b)) as [Hm|Hm]; [|auto].
  rewrite filter_none_in; [done|].
  intros b' Hb' Hm'. apply Hb. unfold matches in *.
  rewrite Hm, <-Hm'. by apply list_elem_of_fmap_2.
Qed.

(** With no Username on two balance rows, the userName column of the merged
    table is the list of the keys. *)
Lemma merge_left_users (dt : list (txn datetime)) (db : list (bal datetime))
    (keys : list string) :
  NoDup (Username <$> db) →
  (λ p, summary_userName (left_row p))
    <$> merge_left (aggregate dt <$> keys) db = keys.
Proof.
  intros Hnd. unfold merge_left.
  induction keys as [|u keys IH]; [done|].
  rewrite fmap_cons, bind_cons, fmap_app, IH. f_equal.
  pose proof (filter_matches_unique u db Hnd) as Hlen.
  unfold merge_row.
  change (summary_userName (aggregate dt u)) with u.
  destruct (filter (matches u) db) as [|b0 [|b1 bs]]; [done|done|].
  simpl in Hlen. lia.
Qed.

(** X13: in the merged table of line 368 every row carries the aggregate
    of a user that has transactions, and the balance columns it holds, if
    any, are those of a balance row of that very user; every balance row
    of a user that has transactions is shown, and none of a user that has
    not; every user that has transactions has a row, with null balance
    columns when no balance row carries the name; when no two balance rows
    share a Username the userName column holds every user that has
    transactions exactly once, in ascending order. *)
Theorem merged_rows_match (dt : list (txn datetime))
    (db : list (bal datetime)) :
  (∀ p, p ∈ user_performance dt db →
        summary_userName (left_row p) ∈ userName <$> dt ∧
        left_row p = aggregate dt (summary_userName (left_row p)) ∧
        ∀ b, right_row p = Some b →
             b ∈ db ∧ Username b = summary_userName (left_row p)) ∧
  (∀ b, b ∈ db → Username b ∈ userName <$> dt →
        Performance (aggregate dt (Username b)) (Some b)
          ∈ user_performance dt db) ∧
  (∀ u, u ∈ userName <$> dt →
        (∃ p, p ∈ user_performance dt db ∧ summary_userName (left_row p) = u) ∧
        ((∀ b, b ∈ db → Username b ≠ u) →
         Performance (aggregate dt u) None ∈ user_performance dt db)) ∧
  (NoDup (Username <$> db) →
   let users :=
     (λ p, summary_userName (left_row p)) <$> user_performance dt db in
   NoDup users ∧ Sorted String.le users ∧
   (∀ u, u ∈ users ↔ u ∈ userName <$> dt) ∧
   length (user_performance dt db) = length (remove_dups (userName <$> dt))).
Proof.
  split_and!.
  - unfold user_performance, merge_left, user_summary.
    intros p (s & Hp & (u & -> & Hu)%list_elem_of_fmap)%list_elem_of_bind.
    rewrite (merge_row_left _ _ _ Hp). simpl.
    split_and!; [by apply elem_of_group_keys|done|].
    intros b Hb. unfold merge_row in Hp.
    change (summary_userName (aggregate dt u)) with u in Hp.
    destruct (filter (matches u) db) as [|b0 bs] eqn:Hf.
    + apply list_elem_of_singleton in Hp as ->. done.
    + apply list_elem_of_fmap in Hp as (ob & -> & Hob). simpl in Hb. subst ob.
      apply list_elem_of_fmap in Hob as (b' & [= <-] & Hb').
      rewrite <-Hf in Hb'. by apply list_elem_of_filter in Hb' as [? ?].
  - unfold user_performance, merge_left, user_summary.
    intros b Hb Hu. apply list_elem_of_bind.
    exists (aggregate dt (Username b)). split.
    + unfold merge_row.
      change (summary_userName (aggregate dt (Username b))) with (Username b).
      assert (b ∈ filter (matches (Username b)) db) as Hin
        by (by apply list_elem_of_filter).
      destruct (filter (matches (Username b)) db) as [|b0 bs];
        [by apply elem_of_nil in Hin|].
      by apply list_elem_of_fmap_2, list_elem_of_fmap_2.
    + apply list_elem_of_fmap_2. by apply elem_of_group_keys.
  - unfold user_performance, merge_left, user_summary.
    intros u Hu.
    assert (aggregate dt u ∈ aggregate dt <$> group_keys dt) as Hs
      by (by apply list_elem_of_fmap_2, elem_of_group_keys).
    split.
    + assert (∃ p, p ∈ merge_row db (aggregate dt u)) as [p Hp].
      { unfold merge_row. destruct (filter _ db) as [|b0 bs].
        - eexists. by left.
        - eexists. rewrite !fmap_cons. by left. }
      exists p. split.
      * apply list_elem_of_bind. by exists (aggregate dt u).
      * by rewrite (merge_row_left _ _ _ Hp).
    + intros Hnone. apply list_elem_of_bind. exists (aggregate dt u).
      split; [|done]. unfold merge_row.
      change (summary_userName (aggregate dt u)) with u.
      rewrite filter_none_in; [by left|].
      intros b Hb. unfold matches. by apply Hnone.
  - intros Hnd users. subst users. unfold user_performance, user_summary.
    rewrite (merge_left_users dt db (group_keys dt) Hnd).
    split_and!; [apply group_keys_NoDup|apply group_keys_sorted
                |apply elem_of_group_keys|].
    rewrite <-(length_fmap (λ p, summary_userName (left_row p))).
    rewrite (merge_left_users dt db (group_keys dt) Hnd).
    unfold group_keys. by rewrite merge_sort_Permutation.
Qed.

Lemma merged_rows_match_unique_witness :
  let users :=
    (λ p, summary_userName (left_row p))
      <$> user_performance sample_transactions sample_balances in
  NoDup users ∧ Sorted String.le users ∧
  (∀ u, u ∈ users ↔ u ∈ userName <$> sample_transactions) ∧
  length (user_performance sample_transactions sample_balances)
    = length (remove_dups (userName <$> sample_transactions)).
Proof.
  destruct (merged_rows_match sample_transactions sample_balances)
    as (_ & _ & _ & Hunique).
  apply Hunique.
  apply NoDup_cons. split; [|apply NoDup_singleton].
  intros H%list_elem_of_singleton. discriminate.
Defined.

(** ** The two conversions, value by value *)

Section conversions.
Variable parse : list string → string → parsed.

Lemma values_coerce whole col :
  to_datetime.values parse errors_coerce whole col
    = Ok (converted parse whole <$> col).
Proof.
  induction col as [|s col IH]; [done|]. simpl. rewrite IH.
  unfold to_datetime.value, converted.
  case_decide; [done|]. by destruct (parse whole s).
Qed.

Lemma values_raise whole col :
  (∀ s, s ∈ col → s = "" ∨ parse whole s ≠ Malformed) →
  to_datetime.values parse errors_raise whole col
    = Ok (converted parse whole <$> col).
Proof.
  induction col as [|s col IH]; intros Hcol; [done|]. simpl.
  rewrite IH by (intros s' Hs'; apply Hcol; by right).
  unfold to_datetime.value, converted.
  case_decide; [done|]. destruct (Hcol s) as [?|Hp]; [by left|done|].
  by destruct (parse whole s).
Qed.

Lemma converted_NaT whole s :
  converted parse whole s = None ↔
  s = "" ∨ ∀ t, parse whole s ≠ Instant t.
Proof.
  unfold converted. case_decide as Hs; [by split; [left|]|].
  destruct (parse whole s); split; try done; try (by right).
  - intros [?|Hp]; [done|]. by destruct (Hp t).
Qed.
End conversions.

Lemma zip_with_fmap_self {A B C D} (f : A → C → D) (g : B → C) (h : A → B)
    (l : list A) :
  zip_with f l (g <$> (h <$> l)) = (λ x, f x (g (h x))) <$> l.
Proof.
  induction l as [|x l IH]; [done|].
  rewrite !fmap_cons. cbn [zip_with]. by rewrite IH.
Qed.

(** X14: the conversion of "Last Updated" (lines 97-102) never raises; it
    keeps every balance row, in order, with its Username, Phone and Current
    Balance, and the Last Updated of a row becomes NaT exactly when the
    cell is empty or is not a date and time under the format. *)
Theorem Last_Updated_coerced (parse : list string → string → parsed)
    (l : list (bal string)) :
  ∃ l', convert_Last_Updated parse (DataFrame l) = Ok (DataFrame l') ∧
        Forall2 (λ b b',
          Username b' = Username b ∧ Phone b' = Phone b ∧
          Current_Balance b' = Current_Balance b ∧
          (Last_Updated b' = None ↔
           Last_Updated b = "" ∨
           ∀ t, parse (Last_Updated <$> l) (Last_Updated b) ≠ Instant t))
          l l'.
Proof.
  exists ((λ b, set_Last_Updated b
                  (converted parse (Last_Updated <$> l) (Last_Updated b)))
            <$> l).
  split.
  - assert (convert_Last_Updated parse (Table l) = Ok (Table
      ((λ b, set_Last_Updated b
               (converted parse (Last_Updated <$> l) (Last_Updated b)))
         <$> l))) as Htable.
    { unfold convert_Last_Updated, to_datetime.series.
      rewrite values_coerce. unfold mbind, result_bind.
      by rewrite zip_with_fmap_self. }
    destruct l as [|b l]; [done|]. exact Htable.
  - generalize (Last_Updated <$> l) at 1 2. intros whole.
    induction l as [|b l IH]; [constructor|].
    rewrite fmap_cons. constructor; [|done]. simpl.
    split_and!; [done..|apply converted_NaT].
Qed.

Lemma malformed_or_clean (parse : list string → string → parsed)
    (whole : list string) (l : list (txn string)) :
  (∀ r, r ∈ l → Timestamp r = "" ∨ parse whole (Timestamp r) ≠ Malformed) ∨
  (∃ r, r ∈ l ∧ Timestamp r ≠ "" ∧ parse whole (Timestamp r) = Malformed).
Proof.
  induction l as [|r l [IH|(r' & Hr' & IH)]].
  - left. intros r Hr. by apply elem_of_nil in Hr.
  - destruct (decide (Timestamp r = "")) as [Hs|Hs].
    { left. intros r' [->|Hr']%elem_of_cons; [by left|auto]. }
    destruct (parse whole (Timestamp r)) eqn:Hp.
    + left. intros r' [->|Hr']%elem_of_cons; [|auto]. right. by rewrite Hp.
    + left. intros r' [->|Hr']%elem_of_cons; [|auto]. right. by rewrite Hp.
    + right. exists r. split; [by left|done].
  - right. exists r'. split; [by right|done].
Qed.

(** X15: the conversion of "Timestamp" (line 95) returns exactly when no
    cell of the column is malformed; it then keeps every transaction, in
    order, with its other columns, and the Timestamp of a row is NaT
    exactly when the cell is empty or a null marker. *)
Theorem Timestamp_conversion_returns_iff
    (parse : list string → string → parsed) (l : list (txn string)) :
  let whole := Timestamp <$> l in
  let clean :=
    ∀ r, r ∈ l → Timestamp r = "" ∨ parse whole (Timestamp r) ≠ Malformed in
  ((∃ df, convert_Timestamp parse (DataFrame l) = Ok df) ↔ clean) ∧
  (¬ clean → convert_Timestamp parse (DataFrame l) = Raise ValueError) ∧
  (clean →
   ∃ l', convert_Timestamp parse (DataFrame l) = Ok (DataFrame l') ∧
         Forall2 (λ r r',
           userName r' = userName r ∧ phoneNumber r' = phoneNumber r ∧
           type r' = type r ∧ amount r' = amount r ∧
           (Timestamp r' = None ↔
            Timestamp r = "" ∨ parse whole (Timestamp r) = Missing))
           l l').
Proof.
  intros whole clean.
  assert (Hclean : clean →
    ∃ l', convert_Timestamp parse (DataFrame l) = Ok (DataFrame l') ∧
         Forall2 (λ r r',
           userName r' = userName r ∧ phoneNumber r' = phoneNumber r ∧
           type r' = type r ∧ amount r' = amount r ∧
           (Timestamp r' = None ↔
            Timestamp r = "" ∨ parse whole (Timestamp r) = Missing))
           l l').
  { intros Hc.
    exists ((λ r, set_Timestamp r (converted parse whole (Timestamp r))) <$> l).
    split.
    - assert (convert_Timestamp parse (Table l) = Ok (Table
        ((λ r, set_Timestamp r (converted parse whole (Timestamp r))) <$> l)))
        as Htable.
      { unfold convert_Timestamp, to_datetime.series. fold whole.
        rewrite values_raise.
        + unfold mbind, result_bind, whole. by rewrite zip_with_fmap_self.
        + intros s (r' & -> & Hr')%list_elem_of_fmap. by apply Hc. }
      destruct l as [|r l]; [done|]. exact Htable.
    - subst clean. revert Hc. generalize whole. intros w Hc.
      induction l as [|r l IH]; [constructor|].
      rewrite fmap_cons. constructor.
      + simpl. split_and!; [done..|]. rewrite converted_NaT.
        destruct (Hc r) as [?|Hm]; [by left|by split; left|].
        split; (intros [?|Hp]; [by left|right]).
        * destruct (parse w (Timestamp r)) as [t| |]; [by destruct (Hp t)|done..].
        * intros t. by rewrite Hp.
      + apply IH. intros r' Hr'. apply Hc. by right. }
  assert (Hdirty : ¬ clean →
    convert_Timestamp parse (DataFrame l) = Raise ValueError).
  { intros Hn.
    destruct (malformed_or_clean parse whole l)
      as [Hc|(r & Hr & Hs & Hp)]; [by destruct Hn|].
    destruct l as [|r0 l]; [by apply elem_of_nil in Hr|].
    unfold DataFrame, convert_Timestamp. fold whole.
    rewrite (series_raise_malformed parse whole (Timestamp r)); [done| |done..].
    by apply list_elem_of_fmap_2. }
  split_and!; [|done..]. split.
  - intros [df Hdf].
    destruct (malformed_or_clean parse whole l)
      as [Hc|(r & Hr & Hs & Hp)]; [done|].
    rewrite Hdirty in Hdf; [done|]. intros Hc.
    by destruct (Hc r Hr).
  - intros Hc. destruct (Hclean Hc) as (l' & -> & _). by eexists.
Qed.
